(** * radar: the review views (review/views.py)

    A shallow embedding of the views that carry the review logic of radar:
    [marked_submissions] (the suspect aggregation), [comparison] (the review
    update endpoint) and [build_graph] (the match graph endpoint), together
    with the parts of [data.models] and [data.graph] they call. *)

From Stdlib Require Import ZArith QArith List Bool String Ascii Lia Lqa.
From Stdlib Require Import Sorting.Sorted Sorting.Permutation.
Import ListNotations.
Local Open Scope string_scope.
Local Open Scope list_scope.
Local Open Scope Z_scope.

(** ** Data model

    The fields of [data.models] that the views read.  Primary keys and
    creation times are Python integers, review scores are integers, the
    similarity of a comparison is a rational number. *)

Record Course := mkCourse {
  course_id : Z;
  course_key : string
}.

Record Student := mkStudent {
  student_id : Z;
  student_key : string
}.

Record Exercise := mkExercise {
  exercise_id : Z;
  exercise_course : Z
}.

Record Submission := mkSubmission {
  submission_student : Student;
  submission_exercise : Exercise;
  submission_created : Z
}.

Record Comparison := mkComparison {
  pk : Z;
  submission_a : Submission;
  submission_b : Submission;
  similarity : Q;
  review : Z
}.

(** The comparison table, in storage order. *)
Definition ComparisonTable := list Comparison.

(** ** Python containers *)

(** A Python [dict] with integer keys: an association list in insertion
    order, each key bound once.  The order is observable: [dict.values()]
    iterates in insertion order and [sorted] is stable. *)
Definition dict (V : Type) := list (Z * V).

Fixpoint dict_get {V : Type} (k : Z) (d : dict V) : option V :=
  match d with
  | [] => None
  | (k', v) :: d' => if k' =? k then Some v else dict_get k d'
  end.

Definition dict_mem {V : Type} (k : Z) (d : dict V) : bool :=
  match dict_get k d with Some _ => true | None => false end.

(** [d[k] = v]: a bound key keeps its position, a new key goes last. *)
Fixpoint dict_set {V : Type} (k : Z) (v : V) (d : dict V) : dict V :=
  match d with
  | [] => [(k, v)]
  | (k', v') :: d' =>
      if k' =? k then (k', v) :: d' else (k', v') :: dict_set k v d'
  end.

Definition dict_keys {V : Type} (d : dict V) : list Z := map fst d.
Definition dict_values {V : Type} (d : dict V) : list V := map snd d.

(** A stable sort by a boolean order [leb]: an element is placed before
    the first element it is [leb] to.  Every stable sort computes the same
    list, so this stands for Python's [sorted] and for the [order_by] of
    a query over rows in storage order. *)
Section StableSort.
Context {A : Type} (leb : A -> A -> bool).

Fixpoint stable_insert (x : A) (l : list A) : list A :=
  match l with
  | [] => [x]
  | y :: l' => if leb x y then x :: y :: l' else y :: stable_insert x l'
  end.

Fixpoint stable_sort (l : list A) : list A :=
  match l with
  | [] => []
  | x :: l' => stable_insert x (stable_sort l')
  end.
End StableSort.

(** [sorted(l, reverse=True, key=key)]: descending keys, equal keys in
    their original order. *)
Definition sorted_reverse {A : Type} (key : A -> Z) (l : list A) : list A :=
  stable_sort (fun x y => key y <=? key x) l.

(** [.order_by(field)]: ascending. *)
Definition order_by {A : Type} (field : A -> Z) (l : list A) : list A :=
  stable_sort (fun x y => field x <=? field y) l.

(** ** marked_submissions *)

(** [{ 'key': ..., 'sum': ..., 'comparisons': [...] }] *)
Record SuspectEntry := mkSuspectEntry {
  entry_key : string;
  entry_sum : Z;
  entry_comparisons : list Comparison
}.

(** [.filter(submission_a__exercise__course=course, review__gte=5)] *)
Definition marked (course : Course) (c : Comparison) : bool :=
  (exercise_course (submission_exercise (submission_a c)) =? course_id course)
  && (5 <=? review c).

(** The queryset of [marked_submissions]. *)
Definition marked_comparisons (table : ComparisonTable) (course : Course)
  : list Comparison :=
  order_by (fun c => submission_created (submission_a c))
           (filter (marked course) table).

(** The body of the inner loop, for one student [s] of comparison [c]. *)
Definition credit (c : Comparison) (s : Student) (suspects : dict SuspectEntry)
  : dict SuspectEntry :=
  let suspects1 :=
    if negb (dict_mem (student_id s) suspects)
    then dict_set (student_id s) (mkSuspectEntry (student_key s) 0 []) suspects
    else suspects in
  match dict_get (student_id s) suspects1 with
  | Some e =>
      dict_set (student_id s)
        (mkSuspectEntry (entry_key e) (entry_sum e + review c)
                        (entry_comparisons e ++ [c]))
        suspects1
  | None => suspects1
  end.

(** [for s in (c.submission_a.student, c.submission_b.student)] *)
Definition credit_both (suspects : dict SuspectEntry) (c : Comparison)
  : dict SuspectEntry :=
  credit c (submission_student (submission_b c))
    (credit c (submission_student (submission_a c)) suspects).

(** [for c in comparisons], from [suspects = {}]. *)
Definition aggregate (comparisons : list Comparison) : dict SuspectEntry :=
  fold_left credit_both comparisons [].

Definition suspects_of (table : ComparisonTable) (course : Course)
  : dict SuspectEntry :=
  aggregate (marked_comparisons table course).

(** The ["suspects"] entry of the rendered context. *)
Definition marked_submissions (table : ComparisonTable) (course : Course)
  : list SuspectEntry :=
  sorted_reverse entry_sum (dict_values (suspects_of table course)).

(** ** Requests and responses *)

(** A Django [QueryDict]: the pairs of the request, in order.  Indexing
    gives the last value bound to the key. *)
Definition QueryDict := list (string * string).

Fixpoint querydict_get (k : string) (q : QueryDict) : option string :=
  match q with
  | [] => None
  | (k', v) :: q' =>
      match querydict_get k q' with
      | Some v' => Some v'
      | None => if (k' =? k)%string then Some v else None
      end
  end.

(** [k in q] *)
Definition querydict_mem (k : string) (q : QueryDict) : bool :=
  existsb (fun kv => (fst kv =? k)%string) q.

(** The truth value of a [QueryDict]: false when empty. *)
Definition querydict_bool (q : QueryDict) : bool :=
  match q with [] => false | _ :: _ => true end.

Record HttpRequest := mkRequest {
  method : string;
  POST : QueryDict;
  GET : QueryDict;
  is_ajax : bool
}.

(** What a view returns: a plain response with a status, a JSON response
    or a rendered template with its context. *)
Inductive Response (J P : Type) : Type :=
| HttpResponse (content : string) (status : Z)
| JsonResponse (data : J)
| render (template_name : string) (context : P).
Arguments HttpResponse {J P} content status.
Arguments JsonResponse {J P} data.
Arguments render {J P} template_name context.

(** Exceptions that leave a view: [Http404] of [get_object_or_404],
    [MultiValueDictKeyError] of indexing a [QueryDict], the errors of
    the graph builder, and [KeyError] of indexing a mapping. *)
Inductive Exception : Type :=
| Http404
| MultiValueDictKeyError (key : string)
| NotFound
| InvalidArgument
| KeyError (key : string).

Inductive Raises (A : Type) : Type :=
| Return (a : A)
| Raise (e : Exception).
Arguments Return {A} a.
Arguments Raise {A} e.

(** ** comparison *)

(** [get_object_or_404(Comparison, submission_a__exercise=exercise, pk=ck,
    submission_a__student__key=ak, submission_b__student__key=bk)];
    [pk] is the primary key, so at most one row matches. *)
Definition comparison_lookup (exercise : Exercise) (ak bk : string) (ck : Z)
  (c : Comparison) : bool :=
  (exercise_id (submission_exercise (submission_a c)) =? exercise_id exercise)
  && (pk c =? ck)
  && (student_key (submission_student (submission_a c)) =? ak)%string
  && (student_key (submission_student (submission_b c)) =? bk)%string.

Definition get_object_or_404 (table : ComparisonTable) (exercise : Exercise)
  (ak bk : string) (ck : Z) : Raises Comparison :=
  match find (comparison_lookup exercise ak bk ck) table with
  | Some c => Return c
  | None => Raise Http404
  end.

(** The part of the template context that the view computes. *)
Record ComparisonContext := mkComparisonContext {
  context_comparison : Comparison;
  context_reverse : bool;
  context_a : Submission;
  context_b : Submission
}.

Definition ComparisonResponse :=
  Response (list (string * bool)) ComparisonContext.

Section ComparisonView.
(** [Comparison.update_review] of [data.models]: from the row, the
    posted value and the table to the returned flag, the row object
    after the call and the table after the call. *)
Variable update_review :
  Comparison -> string -> ComparisonTable -> bool * Comparison * ComparisonTable.

(** [result = "review" in request.POST and
    comparison.update_review(request.POST["review"])] *)
Definition post_review (request : HttpRequest) (comparison : Comparison)
  (table : ComparisonTable) : Raises (bool * Comparison * ComparisonTable) :=
  if querydict_mem "review" (POST request)
  then
    match querydict_get "review" (POST request) with
    | Some new_score => Return (update_review comparison new_score table)
    | None => Raise (MultiValueDictKeyError "review")
    end
  else Return (false, comparison, table).

(** The rest of the view, from [reverse_flag = False] on. *)
Definition comparison_page (request : HttpRequest) (comparison : Comparison)
  : ComparisonResponse :=
  if querydict_mem "reverse" (GET request)
  then render "review/comparison.html"
         (mkComparisonContext comparison true
            (submission_b comparison) (submission_a comparison))
  else render "review/comparison.html"
         (mkComparisonContext comparison false
            (submission_a comparison) (submission_b comparison)).

(** The view: what it returns or raises, and the table it leaves. *)
Definition comparison (table : ComparisonTable) (request : HttpRequest)
  (exercise : Exercise) (ak bk : string) (ck : Z)
  : Raises ComparisonResponse * ComparisonTable :=
  match get_object_or_404 table exercise ak bk ck with
  | Raise e => (Raise e, table)
  | Return comparison =>
      if (method request =? "POST")%string
      then
        match post_review request comparison table with
        | Raise e => (Raise e, table)
        | Return (result, comparison', table') =>
            if is_ajax request
            then (Return (JsonResponse [("success", result)]), table')
            else (Return (comparison_page request comparison'), table')
        end
      else (Return (comparison_page request comparison), table)
  end.
End ComparisonView.

(** ** build_graph *)

Section BuildGraphView.
Context {G : Type}.
(** [graph.generate_match_graph(course_key, min_similarity)] of
    [data.graph]: the graph data, or the exception it raises. *)
Variable generate_match_graph : string -> string -> Raises G.

Definition build_graph_400 : string :=
  "Graph build arguments must contain 'minSimilarity' in the body of a POST request.".

Definition build_graph (request : HttpRequest) (course : Course)
  : Raises (Response G unit) :=
  if negb (querydict_bool (POST request))
     || negb (querydict_mem "minSimilarity" (POST request))
  then Return (HttpResponse build_graph_400 400)
  else
    match querydict_get "minSimilarity" (POST request) with
    | None => Raise (MultiValueDictKeyError "minSimilarity")
    | Some min_similarity =>
        match generate_match_graph (course_key course) min_similarity with
        | Return graph_data => Return (JsonResponse graph_data)
        | Raise e => Raise e
        end
    end.
End BuildGraphView.

(** ** Reading numbers from request values *)

Definition digit_of (a : ascii) : option Z :=
  let n := Z.of_nat (nat_of_ascii a) in
  if (48 <=? n) && (n <=? 57) then Some (n - 48) else None.

(** The digits of [s] read after [acc], and how many there were. *)
Fixpoint parse_digits (s : string) (acc : Z) (len : nat) : option (Z * nat) :=
  match s with
  | EmptyString => Some (acc, len)
  | String a s' =>
      match digit_of a with
      | Some d => parse_digits s' (10 * acc + d) (S len)
      | None => None
      end
  end.

(** One or more decimal digits. *)
Definition parse_nat (s : string) : option Z :=
  match parse_digits s 0 0%nat with
  | Some (n, S _) => Some n
  | _ => None
  end.

(** An integer: an optional sign and one or more decimal digits. *)
Definition parse_int (s : string) : option Z :=
  match s with
  | String "-"%char s' => option_map Z.opp (parse_nat s')
  | String "+"%char s' => parse_nat s'
  | _ => parse_nat s
  end.

(** [s] cut at its first ['.']. *)
Fixpoint split_dot (s : string) : string * option string :=
  match s with
  | EmptyString => (EmptyString, None)
  | String a s' =>
      if (a =? ".")%char then (EmptyString, Some s')
      else let '(i, f) := split_dot s' in (String a i, f)
  end.

(** An unsigned decimal: digits, then optionally ['.'] and digits. *)
Definition parse_decimal (s : string) : option Q :=
  match split_dot s with
  | (i, None) => option_map inject_Z (parse_nat i)
  | (i, Some f) =>
      match parse_nat i, parse_digits f 0 0%nat with
      | Some n, Some (m, S len) =>
          Some (Qmake (n * 10 ^ Z.of_nat (S len) + m)
                      (Z.to_pos (10 ^ Z.of_nat (S len))))
      | _, _ => None
      end
  end.

(** A number: an optional sign and a decimal. *)
Definition parse_number (s : string) : option Q :=
  match s with
  | String "-"%char s' => option_map Qopp (parse_decimal s')
  | String "+"%char s' => parse_decimal s'
  | _ => parse_decimal s
  end.

(** ** The review state machine (section 4.4 of the spec) *)

Definition set_review (c : Comparison) (r : Z) : Comparison :=
  mkComparison (pk c) (submission_a c) (submission_b c) (similarity c) r.

(** Modelled from the spec: the write that persists an updated review
    score ([self.save()] of data/models.py, missing from the sources): the
    row with the primary key of [c] becomes [c]. *)
Definition save (c : Comparison) (table : ComparisonTable) : ComparisonTable :=
  map (fun row => if pk row =? pk c then c else row) table.

Section ReviewStateMachine.
(** The top of the review scale; the scale is [0 .. max_review]. *)
Variable max_review : Z.

Definition valid_review (r : Z) : bool := (0 <=? r) && (r <=? max_review).

(** Modelled from the spec: [Comparison.update_review] of data/models.py
    is missing from the sources.  Section 4.4: it validates that the new
    score is within the allowed scale; on success it persists the new
    score and returns success; a malformed or out-of-range score is
    rejected with no mutation and failure is reported to the caller. *)
Definition update_review (self : Comparison) (new_score : string)
  (table : ComparisonTable) : bool * Comparison * ComparisonTable :=
  match parse_int new_score with
  | Some r =>
      if valid_review r
      then (true, set_review self r, save (set_review self r) table)
      else (false, self, table)
  | None => (false, self, table)
  end.
End ReviewStateMachine.

(** ** The match graph builder (section 4.1 of the spec) *)

Record Edge := mkEdge {
  edge_source : string;
  edge_target : string;
  edge_similarity : Q
}.

Record MatchGraph := mkMatchGraph {
  nodes : list string;
  edges : list Edge
}.

(** The edge multiplicity policies that section 4.1 allows. *)
Inductive EdgePolicy : Type := KeepMax | KeepAll.

(** The edge of a comparison joins the two authoring students; the pair is
    unordered, so the smaller key is the source. *)
Definition edge_of (c : Comparison) : Edge :=
  let a := student_key (submission_student (submission_a c)) in
  let b := student_key (submission_student (submission_b c)) in
  if String.leb a b then mkEdge a b (similarity c)
  else mkEdge b a (similarity c).

Definition same_pair (e e' : Edge) : bool :=
  (edge_source e =? edge_source e')%string
  && (edge_target e =? edge_target e')%string.

(** Keep one edge per student pair, the one of maximal similarity. *)
Fixpoint add_max_edge (e : Edge) (g : list Edge) : list Edge :=
  match g with
  | [] => [e]
  | e' :: g' =>
      if same_pair e e'
      then (if Qle_bool (edge_similarity e) (edge_similarity e')
            then e' else e) :: g'
      else e' :: add_max_edge e g'
  end.

Definition add_edge (policy : EdgePolicy) (e : Edge) (g : list Edge)
  : list Edge :=
  match policy with
  | KeepMax => add_max_edge e g
  | KeepAll => g ++ [e]
  end.

Definition in_course (course : Course) (c : Comparison) : bool :=
  exercise_course (submission_exercise (submission_a c)) =? course_id course.

(** One comparison of the course: an edge when its similarity reaches the
    threshold. *)
Definition build_step (policy : EdgePolicy) (min_similarity : Q)
  (g : list Edge) (c : Comparison) : list Edge :=
  if Qle_bool min_similarity (similarity c)
  then add_edge policy (edge_of c) g
  else g.

Definition build_edges (policy : EdgePolicy) (table : ComparisonTable)
  (course : Course) (min_similarity : Q) : list Edge :=
  fold_left (build_step policy min_similarity)
            (filter (in_course course) table) [].

(** Modelled from the spec: the match graph builder [build] of section 4.1
    (data/graph.py is missing from the sources).  It retrieves the
    comparisons of the course and, for each with similarity at least
    [min_similarity], adds an edge between the two authoring students;
    the nodes are the students that are an endpoint of a surviving edge. *)
Definition build (policy : EdgePolicy) (table : ComparisonTable)
  (course : Course) (min_similarity : Q) : MatchGraph :=
  let es := build_edges policy table course min_similarity in
  mkMatchGraph
    (nodup string_dec (flat_map (fun e => [edge_source e; edge_target e]) es))
    es.

(** Modelled from the spec: [generate_match_graph] of data/graph.py is
    missing from the sources.  Section 4.1: an unknown course is NotFound;
    a [min_similarity] that is not parseable as a number, or negative, is
    InvalidArgument; otherwise the graph of [build]. *)
Definition generate_match_graph (policy : EdgePolicy) (courses : list Course)
  (table : ComparisonTable) (key min_similarity : string) : Raises MatchGraph :=
  match find (fun course => (course_key course =? key)%string) courses with
  | None => Raise NotFound
  | Some course =>
      match parse_number min_similarity with
      | None => Raise InvalidArgument
      | Some t =>
          if Qle_bool 0 t then Return (build policy table course t)
          else Raise InvalidArgument
      end
  end.

(** ** Specification vocabulary *)

(** The occurrences of [c] that student [sid] is credited with. *)
Definition credits (sid : Z) (c : Comparison) : list Comparison :=
  (if student_id (submission_student (submission_a c)) =? sid then [c] else [])
  ++ (if student_id (submission_student (submission_b c)) =? sid then [c] else []).

(** The students of the comparisons, in the order the loop visits them. *)
Definition participants (comparisons : list Comparison) : list Student :=
  flat_map (fun c => [submission_student (submission_a c);
                      submission_student (submission_b c)]) comparisons.

Definition sum_reviews (comparisons : list Comparison) : Z :=
  fold_right (fun c acc => review c + acc) 0 comparisons.

(** The entry that the aggregation must hold for student [sid]. *)
Definition expected_entry (sid : Z) (comparisons : list Comparison)
  : option SuspectEntry :=
  match find (fun s => student_id s =? sid) (participants comparisons) with
  | Some s =>
      Some (mkSuspectEntry (student_key s)
              (sum_reviews (flat_map (credits sid) comparisons))
              (flat_map (credits sid) comparisons))
  | None => None
  end.

(** [l] is sorted for the boolean order [leb]. *)
Fixpoint sortedb {A : Type} (leb : A -> A -> bool) (l : list A) : bool :=
  match l with
  | [] => true
  | x :: l' => forallb (leb x) l' && sortedb leb l'
  end.

(** Descending by summed score. *)
Definition by_sum_desc (e1 e2 : SuspectEntry) : bool :=
  entry_sum e2 <=? entry_sum e1.

(** Descending by summed score, ties ascending by student key. *)
Definition by_sum_desc_key_asc (e1 e2 : SuspectEntry) : bool :=
  (entry_sum e2 <? entry_sum e1)
  || ((entry_sum e1 =? entry_sum e2)
      && String.leb (entry_key e1) (entry_key e2)).

(** The keys of [l] without repeats, each at its first occurrence. *)
Fixpoint first_occurrences (l : list Z) : list Z :=
  match l with
  | [] => []
  | k :: l' => k :: filter (fun k' => negb (k' =? k)) (first_occurrences l')
  end.

(** The entry of student [sid] after the loop body ran for student [s] of
    comparison [c], from the entry [o] before it. *)
Definition credited (c : Comparison) (s : Student) (sid : Z)
  (o : option SuspectEntry) : option SuspectEntry :=
  if student_id s =? sid
  then
    let e := match o with
             | Some e => e
             | None => mkSuspectEntry (student_key s) 0 []
             end in
    Some (mkSuspectEntry (entry_key e) (entry_sum e + review c)
                         (entry_comparisons e ++ [c]))
  else o.

(** A posted review value that the scale [0 .. max_review] accepts. *)
Definition acceptable (max_review : Z) (new_score : string) : bool :=
  match parse_int new_score with
  | Some r => valid_review max_review r
  | None => false
  end.

(** The unordered student pair of an edge, as its two sorted keys. *)
Definition edge_pair (e : Edge) : string * string :=
  (edge_source e, edge_target e).

Definition pair_eqb (p q : string * string) : bool :=
  (fst p =? fst q)%string && (snd p =? snd q)%string.

(** The edge that a graph holds for a student pair. *)
Definition edge_lookup (p : string * string) (g : list Edge) : option Edge :=
  find (fun e => pair_eqb p (edge_pair e)) g.

(** The edge kept for a pair when [e] meets the edge [o] already there. *)
Definition keep_max (e : Edge) (o : option Edge) : Edge :=
  match o with
  | Some e' =>
      if Qle_bool (edge_similarity e) (edge_similarity e') then e' else e
  | None => e
  end.

(** The edge of a pair, when its similarity reaches [t]. *)
Definition reaching (t : Q) (o : option Edge) : option Edge :=
  match o with
  | Some e => if Qle_bool t (edge_similarity e) then Some e else None
  | None => None
  end.

(** ** Scenarios *)

Definition course_X : Course := mkCourse 1 "X".
Definition exercise_E : Exercise := mkExercise 1 1.
Definition student_A : Student := mkStudent 1 "A".
Definition student_B : Student := mkStudent 2 "B".
Definition student_C : Student := mkStudent 3 "C".
Definition submission_of_A : Submission := mkSubmission student_A exercise_E 10.
Definition submission_of_B : Submission := mkSubmission student_B exercise_E 20.
Definition submission_of_C : Submission := mkSubmission student_C exercise_E 30.

(** (A,B) sim=0.9 review=0; (A,C) sim=0.4 review=7; (B,C) sim=0.95 review=6. *)
Definition comparison_AB : Comparison :=
  mkComparison 1 submission_of_A submission_of_B (9 # 10) 0.
Definition comparison_AC : Comparison :=
  mkComparison 2 submission_of_A submission_of_C (4 # 10) 7.
Definition comparison_BC : Comparison :=
  mkComparison 3 submission_of_B submission_of_C (95 # 100) 6.
Definition table_X : ComparisonTable :=
  [comparison_AB; comparison_AC; comparison_BC].

(** A comparison with the submission of B first, reviewed 5. *)
Definition comparison_BA : Comparison :=
  mkComparison 4 submission_of_B submission_of_A (9 # 10) 5.

(** A comparison of two submissions of A, reviewed 8. *)
Definition submission_of_A' : Submission := mkSubmission student_A exercise_E 40.
Definition comparison_AA : Comparison :=
  mkComparison 5 submission_of_A submission_of_A' (1 # 1) 8.

Definition request_post (post : QueryDict) (ajax : bool) : HttpRequest :=
  mkRequest "POST" post [] ajax.

(** ** Further vocabulary for the suspect list *)

(** The sum of the summed scores of a list of entries. *)
Definition entries_total (l : list SuspectEntry) : Z :=
  fold_right (fun e acc => entry_sum e + acc) 0 l.

(** Ascending by the creation time of submission_a. *)
Definition by_created (c1 c2 : Comparison) : bool :=
  submission_created (submission_a c1) <=? submission_created (submission_a c2).

(** Student [sid] authored one of the two submissions of [c]. *)
Definition endpoint (sid : Z) (c : Comparison) : Prop :=
  student_id (submission_student (submission_a c)) = sid
  \/ student_id (submission_student (submission_b c)) = sid.

(** ** Exercise data of the provider API *)

(** JSON values, as the API client hands them over. *)
#[warnings="-register-all"]
Inductive Json : Type :=
| JNull
| JBool (b : bool)
| JInt (n : Z)
| JStr (s : string)
| JList (items : list Json)
| JDict (members : list (string * Json)).

(** A Python [dict] with string keys, in insertion order. *)
Definition sdict (V : Type) := list (string * V).

Fixpoint sdict_get {V : Type} (k : string) (d : sdict V) : option V :=
  match d with
  | [] => None
  | (k', v) :: d' => if (k' =? k)%string then Some v else sdict_get k d'
  end.

(** [d[k] = v], also [dict(d, k=v)] on a copy: a bound key keeps its
    position, a new key goes last. *)
Fixpoint sdict_set {V : Type} (k : string) (v : V) (d : sdict V) : sdict V :=
  match d with
  | [] => [(k, v)]
  | (k', v') :: d' =>
      if (k' =? k)%string then (k', v) :: d' else (k', v') :: sdict_set k v d'
  end.

(** An exercise of the API, a node of the exercise tree.
    [api_exercises] is [exercise.get("exercises")], empty when the key is
    absent or null; [api_is_submittable] is [None] when the key is absent;
    [api_exercise_info] is [None] when the key is absent, [Some None] when
    its value is null and [Some (Some d)] when it is the object [d];
    [api_data] holds the other keys. *)
#[warnings="-register-all"]
Inductive ApiExercise : Type :=
| ApiDict (api_data : sdict Json) (api_is_submittable : option bool)
          (api_exercise_info : option (option (sdict Json)))
          (api_exercises : list ApiExercise).

Definition api_exercises_of (exercise : ApiExercise) : list ApiExercise :=
  match exercise with ApiDict _ _ _ children => children end.

(** Induction over exercise trees, with the property known for all
    children. *)
Section ApiExerciseInduction.
Variable P : ApiExercise -> Prop.
Hypothesis P_node :
  forall data sub info children,
    Forall P children -> P (ApiDict data sub info children).

Fixpoint ApiExercise_forall_ind (exercise : ApiExercise) : P exercise :=
  match exercise with
  | ApiDict data sub info children =>
      P_node data sub info children
        ((fix all (l : list ApiExercise) : Forall P l :=
            match l with
            | [] => Forall_nil P
            | x :: l' => Forall_cons x (ApiExercise_forall_ind x) (all l')
            end) children)
  end.
End ApiExerciseInduction.

(** [radar={"tokenizer": "skip", "minimum_match_tokens": 15}] *)
Definition manual_radar : Json :=
  JDict [("tokenizer", JStr "skip"); ("minimum_match_tokens", JInt 15)].

(** [dict(exercise["exercise_info"] or {}, radar={...})] *)
Definition patched_exercise_info (exercise_info : option (sdict Json))
  : sdict Json :=
  sdict_set "radar" manual_radar
    (match exercise_info with Some d => d | None => [] end).

(** [exercise.add_data({"exercise_info": patched_exercise_info})] *)
Definition add_exercise_info (exercise : ApiExercise) (info : sdict Json)
  : ApiExercise :=
  match exercise with
  | ApiDict data sub _ children => ApiDict data sub (Some (Some info)) children
  end.

(** What a generator has yielded when it ends, or the exception that ends
    it: the first one raised. *)
Definition raises_app {A : Type} (first rest : Raises (list A))
  : Raises (list A) :=
  match first with
  | Raise e => Raise e
  | Return l =>
      match rest with
      | Raise e => Raise e
      | Return l' => Return (l ++ l')
      end
  end.

Section ProviderExercises.
Context {Config : Type}.
(** [aplus.get_radar_config(exercise)]: the Radar configuration of an
    exercise, [None] when it has none. *)
Variable get_radar_config : ApiExercise -> option Config.

Definition yield_radar_config (exercise : ApiExercise) : list Config :=
  match get_radar_config exercise with
  | Some radar_config => [radar_config]
  | None => []
  end.

(** The body of the loop of [leafs_with_radar_config], for one exercise. *)
Fixpoint leafs_with_radar_config_of (exercise : ApiExercise) : list Config :=
  match exercise with
  | ApiDict _ _ _ [] => yield_radar_config exercise
  | ApiDict _ _ _ child_exercises =>
      flat_map leafs_with_radar_config_of child_exercises
  end.

(** What the generator yields, in order. *)
Definition leafs_with_radar_config (exercises : list ApiExercise)
  : list Config :=
  flat_map leafs_with_radar_config_of exercises.

(** The body of the loop of [submittable_exercises], for one exercise:
    what it yields, or the [KeyError] of [exercise["exercise_info"]] on a
    submittable leaf that has no such key. *)
Fixpoint submittable_exercises_of (exercise : ApiExercise)
  : Raises (list Config) :=
  match exercise with
  | ApiDict _ sub info [] =>
      match sub with
      | Some true =>
          match info with
          | Some exercise_info =>
              Return (yield_radar_config
                        (add_exercise_info exercise
                           (patched_exercise_info exercise_info)))
          | None => Raise (KeyError "exercise_info")
          end
      | _ => Return []
      end
  | ApiDict _ _ _ child_exercises =>
      fold_right
        (fun child rest => raises_app (submittable_exercises_of child) rest)
        (Return []) child_exercises
  end.

(** What [list(submittable_exercises(exercises))] gives. *)
Definition submittable_exercises (exercises : list ApiExercise)
  : Raises (list Config) :=
  fold_right
    (fun exercise rest => raises_app (submittable_exercises_of exercise) rest)
    (Return []) exercises.
End ProviderExercises.

(** The leaf exercises of a tree, left to right. *)
Fixpoint leaf_exercises_of (exercise : ApiExercise) : list ApiExercise :=
  match exercise with
  | ApiDict _ _ _ [] => [exercise]
  | ApiDict _ _ _ child_exercises => flat_map leaf_exercises_of child_exercises
  end.

Definition leaf_exercises (exercises : list ApiExercise) : list ApiExercise :=
  flat_map leaf_exercises_of exercises.

Definition is_submittable (exercise : ApiExercise) : bool :=
  match exercise with
  | ApiDict _ (Some true) _ _ => true
  | _ => false
  end.

(** The leaf as [submittable_exercises] leaves it: with the manual Radar
    configuration in its [exercise_info]. *)
Definition patched (exercise : ApiExercise) : ApiExercise :=
  match exercise with
  | ApiDict _ _ (Some exercise_info) _ =>
      add_exercise_info exercise (patched_exercise_info exercise_info)
  | ApiDict _ _ None _ => exercise
  end.

(** The exercise has no [exercise_info] key. *)
Definition lacks_exercise_info (exercise : ApiExercise) : bool :=
  match exercise with
  | ApiDict _ _ None _ => true
  | ApiDict _ _ (Some _) _ => false
  end.

(** ** configure_course *)

(** [s.endswith(suffix)]: some tail of [s] is [suffix]. *)
Fixpoint endswith (suffix s : string) : bool :=
  (s =? suffix)%string
  || match s with
     | EmptyString => false
     | String _ s' => endswith suffix s'
     end.

(** [s.split(sep, 1)[0]] for a separator of one character: [s] up to its
    first [sep], all of [s] when it has none. *)
Fixpoint split_head (sep : ascii) (s : string) : string :=
  match s with
  | EmptyString => EmptyString
  | String a s' =>
      if (a =? sep)%char then EmptyString else String a (split_head sep s')
  end.

(** [sep] occurs in [s]. *)
Fixpoint contains (sep : ascii) (s : string) : bool :=
  match s with
  | EmptyString => false
  | String a s' => (a =? sep)%char || contains sep s'
  end.

(** [for key in q]: the keys, each once, in order of first occurrence. *)
Fixpoint querydict_keys (q : QueryDict) : list string :=
  match q with
  | [] => []
  | (k, _) :: q' =>
      k :: filter (fun k' => negb (k' =? k)%string) (querydict_keys q')
  end.

(** The exercise data that [configure_course] writes. *)
Record ExerciseConfig := mkExerciseConfig {
  config_exercise_key : string;
  config_name : string;
  config_tokenizer : string;
  config_minimum_match_tokens : string
}.

(** What the view does to the course: [exercise.set_from_config(data)]
    with [exercise.save()] on [course.get_exercise(key)], and the
    [full_reload] of that exercise. *)
Inductive ConfigureEffect : Type :=
| SaveExercise (key : string) (exercise_data : ExerciseConfig)
| FullReload (key : string).

(** [context["exercises"]] *)
Inductive ExercisesContext (Config : Type) : Type :=
| AutomaticExercises (old new : list Config) (new_json : string)
| ManualExercises (new : list Config).
Arguments AutomaticExercises {Config} old new new_json.
Arguments ManualExercises {Config} new.

(** The entries of the template context that the view computes. *)
Record ConfigureContext (Config : Type) := mkConfigureContext {
  context_errors : list string;
  context_exercises : option (ExercisesContext Config);
  context_create_exercises_success : bool
}.
Arguments mkConfigureContext {Config} _ _ _.
Arguments context_errors {Config} _.
Arguments context_exercises {Config} _.
Arguments context_create_exercises_success {Config} _.

(** The dictionary built for one checked exercise of the overwrite form;
    indexing the POST data raises on the first missing field. *)
Definition overwrite_exercise_data (post : QueryDict) (exercise_key : string)
  : Raises ExerciseConfig :=
  match querydict_get (exercise_key ++ "-name")%string post with
  | None => Raise (MultiValueDictKeyError (exercise_key ++ "-name")%string)
  | Some name =>
      match querydict_get (exercise_key ++ "-tokenizer")%string post with
      | None =>
          Raise (MultiValueDictKeyError (exercise_key ++ "-tokenizer")%string)
      | Some tokenizer =>
          match querydict_get (exercise_key ++ "-min-match-tokens")%string
                  post with
          | None =>
              Raise (MultiValueDictKeyError
                       (exercise_key ++ "-min-match-tokens")%string)
          | Some minimum_match_tokens =>
              Return (mkExerciseConfig exercise_key name tokenizer
                        minimum_match_tokens)
          end
      end
  end.

(** [checked]: the exercise keys of the fields that end in "enabled". *)
Definition checked_exercises (post : QueryDict) : list string :=
  map (split_head "-") (filter (endswith "enabled") (querydict_keys post)).

(** The loop [for exercise_data in exercises] over the lazily built
    dictionaries of the overwrite form: the exception that ended it, if
    any, and the effects up to there. *)
Fixpoint overwrite_exercises (post : QueryDict) (checked : list string)
  : option Exception * list ConfigureEffect :=
  match checked with
  | [] => (None, [])
  | exercise_key :: rest =>
      match overwrite_exercise_data post exercise_key with
      | Raise e => (Some e, [])
      | Return exercise_data =>
          let '(raised, effects) := overwrite_exercises post rest in
          (raised,
           SaveExercise exercise_key exercise_data
           :: FullReload exercise_key :: effects)
      end
  end.

(** The same loop over the exercises of [exercises_json]. *)
Definition create_exercises (exercises : list ExerciseConfig)
  : list ConfigureEffect :=
  flat_map (fun exercise_data =>
              [SaveExercise (config_exercise_key exercise_data) exercise_data;
               FullReload (config_exercise_key exercise_data)])
           exercises.

Section ConfigureCourse.
Context {Config : Type}.
Variable get_radar_config : ApiExercise -> option Config.
(** The configuration with its template source fetched and its getter
    deleted. *)
Variable with_template_source : Config -> Config.
(** [radar_config["exercise_key"]] *)
Variable radar_exercise_key : Config -> string.
(** [course.has_exercise] *)
Variable has_exercise : string -> bool.
Variable json_dumps : list Config -> string.
Variable json_loads : string -> Raises (list ExerciseConfig).
(** [repr(course)] *)
Variable course_repr : string.

Definition credentials_error : string :=
  ("This user does not have correct credentials to use the API of "
   ++ course_repr)%string.

Definition no_exercises_error : string :=
  ("No exercises found for " ++ course_repr)%string.

(** One round of the loop that parts the configurations into new and old
    exercises; the state is [(new_exercises, old_exercises)]. *)
Definition partition_exercise (lists : list Config * list Config)
  (radar_config : Config) : list Config * list Config :=
  let radar_config' := with_template_source radar_config in
  if has_exercise (radar_exercise_key radar_config')
  then (fst lists, snd lists ++ [radar_config'])
  else (fst lists ++ [radar_config'], snd lists).

(** The view.  [api_exercises] is what the [try] block leaves in
    [exercises]: [None] when it raised [APIAuthException] (no client or no
    response), else [response.get("exercises", [])].  The result is the
    context rendered, or the exception raised, and the effects. *)
Definition configure_course (request : HttpRequest)
  (api_exercises : option (list ApiExercise))
  : Raises (ConfigureContext Config) * list ConfigureEffect :=
  let post := POST request in
  if querydict_mem "provider-fetch-automatic" post
     || querydict_mem "provider-fetch-manual" post
  then
    let exercises := match api_exercises with Some l => l | None => [] end in
    let errors :=
      match api_exercises with Some _ => [] | None => [credentials_error] end in
    match exercises with
    | [] =>
        (Return (mkConfigureContext (errors ++ [no_exercises_error]) None false),
         [])
    | _ :: _ =>
        if querydict_mem "provider-fetch-automatic" post
        then
          let '(new_exercises, old_exercises) :=
            fold_left partition_exercise
              (leafs_with_radar_config get_radar_config exercises) ([], []) in
          (Return (mkConfigureContext errors
                     (Some (AutomaticExercises old_exercises new_exercises
                              (json_dumps new_exercises)))
                     false),
           [])
        else if querydict_mem "provider-fetch-manual" post
        then
          match submittable_exercises get_radar_config exercises with
          | Raise e => (Raise e, [])
          | Return exercises_data =>
              (Return (mkConfigureContext errors
                         (Some (ManualExercises exercises_data)) false),
               [])
          end
        else (Return (mkConfigureContext errors None false), [])
    end
  else if querydict_mem "create_exercises" post
          || querydict_mem "overwrite_exercises" post
  then
    if querydict_mem "create_exercises" post
    then
      match querydict_get "exercises_json" post with
      | None => (Raise (MultiValueDictKeyError "exercises_json"), [])
      | Some exercises_json =>
          match json_loads exercises_json with
          | Raise e => (Raise e, [])
          | Return exercises =>
              (Return (mkConfigureContext [] None true),
               create_exercises exercises)
          end
      end
    else
      (* here "overwrite_exercises" is in the POST data *)
      match overwrite_exercises post (checked_exercises post) with
      | (Some e, effects) => (Raise e, effects)
      | (None, effects) =>
          (Return (mkConfigureContext [] None true), effects)
      end
  else (Return (mkConfigureContext [] None false), []).
End ConfigureCourse.

(** ** exercise_settings *)

Inductive SettingsEffect : Type :=
| FormSave
| TemplateSave (template_source : option string)
| Recompare
| ProviderReload
| DeleteExercise.

Record SettingsContext := mkSettingsContext {
  change_success : list string;
  template_source_error : bool;
  settings_template_source : string
}.

Inductive SettingsResponse : Type :=
| redirect (to : string)
| render_settings (context : SettingsContext).

Section ExerciseSettings.
(** [ExerciseForm(request.POST).is_valid()] and
    [ExerciseTemplateForm(request.POST).is_valid()] *)
Variable form_is_valid : QueryDict -> bool.
Variable form_template_is_valid : QueryDict -> bool.
(** [aplus.load_exercise_template] and [exercise.template_tokens], read
    after the effects of the request. *)
Variable load_exercise_template : list SettingsEffect -> string.
Variable template_tokens : list SettingsEffect -> string.

(** The [if request.method == "POST"] block: the effects, the names put
    into [change_success]. *)
Definition settings_post (request : HttpRequest)
  : list SettingsEffect * list string :=
  let post := POST request in
  if (method request =? "POST")%string
  then
    if querydict_mem "save" post
    then
      if form_is_valid post then ([FormSave], ["save"]) else ([], [])
    else if querydict_mem "override_template" post
    then
      if form_template_is_valid post
      then ([TemplateSave (querydict_get "template_source" post)],
            ["override_template"])
      else ([], [])
    else if querydict_mem "clear_and_recompare" post
    then ([Recompare], ["clear_and_recompare"])
    else if querydict_mem "provider_reload" post
    then ([ProviderReload], ["provider_reload"])
    else if querydict_mem "delete_exercise" post
    then ([DeleteExercise], [])
    else ([], [])
  else ([], []).

Definition is_delete (effect : SettingsEffect) : bool :=
  match effect with DeleteExercise => true | _ => false end.

Definition exercise_settings (request : HttpRequest)
  : SettingsResponse * list SettingsEffect :=
  let '(effects, success) := settings_post request in
  if existsb is_delete effects
  then (redirect "course", effects)
  else
    let template_source := load_exercise_template effects in
    if negb (template_tokens effects =? "")%string
       && (template_source =? "")%string
    then (render_settings (mkSettingsContext success true ""), effects)
    else (render_settings (mkSettingsContext success false template_source),
          effects).
End ExerciseSettings.

(** The effects of one exercise of the overwrite form: saved, then
    reloaded, when all its fields are there. *)
Definition exercise_effects (post : QueryDict) (exercise_key : string)
  : list ConfigureEffect :=
  match overwrite_exercise_data post exercise_key with
  | Return exercise_data =>
      [SaveExercise exercise_key exercise_data; FullReload exercise_key]
  | Raise _ => []
  end.

(** The name that [exercise_settings] reports for an effect. *)
Definition effect_name (effect : SettingsEffect) : list string :=
  match effect with
  | FormSave => ["save"]
  | TemplateSave _ => ["override_template"]
  | Recompare => ["clear_and_recompare"]
  | ProviderReload => ["provider_reload"]
  | DeleteExercise => []
  end.

(** ** Scenarios of the course configuration *)

(** A leaf whose [exercise_info] is null. *)
Definition leaf_exercise (name : string) (sub : option bool) : ApiExercise :=
  ApiDict [("name", JStr name)] sub (Some None) [].

(** A configuration reader for the scenarios: the name of the exercise. *)
Definition name_as_config (exercise : ApiExercise) : option string :=
  match exercise with
  | ApiDict data _ _ _ =>
      match sdict_get "name" data with
      | Some (JStr name) => Some name
      | _ => None
      end
  end.

Definition sample_exercises : list ApiExercise :=
  [ApiDict [("name", JStr "module")] None (Some None)
     [leaf_exercise "ex1" (Some true); leaf_exercise "ex2" None];
   leaf_exercise "ex3" (Some true)].

(** A posted overwrite form: ex1 is complete, ex2 lacks its tokenizer. *)
Definition post_overwrite : QueryDict :=
  [("overwrite_exercises", "1");
   ("ex1-enabled", "on"); ("ex1-name", "One");
   ("ex1-tokenizer", "python"); ("ex1-min-match-tokens", "15");
   ("ex2-enabled", "on"); ("ex2-name", "Two")].

(** The view of the scenarios: configurations are exercise names, the
    course has the exercise "ex1". *)
Definition sample_configure_course (request : HttpRequest)
  (api_exercises : option (list ApiExercise))
  : Raises (ConfigureContext string) * list ConfigureEffect :=
  configure_course name_as_config (fun c => c) (fun c => c)
    (fun key => (key =? "ex1")%string) (String.concat ",")
    (fun _ => Return []) "<Course: X>" request api_exercises.

(** What [submittable_exercises] gives for a tree with the leaves
    [leaves]: the [KeyError] when a submittable leaf lacks [exercise_info],
    else the configurations of the patched submittable leaves. *)
Definition submittable_leaves {Config : Type}
  (get_radar_config : ApiExercise -> option Config)
  (leaves : list ApiExercise) : Raises (list Config) :=
  if existsb lacks_exercise_info (filter is_submittable leaves)
  then Raise (KeyError "exercise_info")
  else Return
         (flat_map
            (fun leaf => yield_radar_config get_radar_config (patched leaf))
            (filter is_submittable leaves)).

(** * Properties *)

(** ** Dictionaries *)

Section DictFacts.
Context {V : Type}.
Implicit Types (d : dict V) (k : Z) (v : V).

Lemma dict_get_set_same d k v : dict_get k (dict_set k v d) = Some v.
Proof.
  induction d as [|[k' v'] d IH]; simpl.
  - now rewrite Z.eqb_refl.
  - destruct (k' =? k) eqn:E; simpl; rewrite E; auto.
Qed.

Lemma dict_get_set_other d k k' v :
  k' <> k -> dict_get k' (dict_set k v d) = dict_get k' d.
Proof.
  intros Hne. induction d as [|[k0 v0] d IH]; simpl.
  - destruct (k =? k') eqn:E; auto. apply Z.eqb_eq in E. congruence.
  - destruct (k0 =? k) eqn:E; simpl.
    + apply Z.eqb_eq in E. subst k0.
      destruct (k =? k') eqn:E'; auto. apply Z.eqb_eq in E'. congruence.
    + now rewrite IH.
Qed.

Lemma dict_mem_keys d k : dict_mem k d = true <-> In k (dict_keys d).
Proof.
  unfold dict_mem. induction d as [|[k' v'] d IH]; simpl.
  - split; [discriminate | tauto].
  - destruct (k' =? k) eqn:E.
    + apply Z.eqb_eq in E. tauto.
    + apply Z.eqb_neq in E. rewrite IH. tauto.
Qed.

Lemma dict_keys_set d k v :
  dict_keys (dict_set k v d)
  = if dict_mem k d then dict_keys d else dict_keys d ++ [k].
Proof.
  unfold dict_mem. induction d as [|[k' v'] d IH]; simpl; auto.
  destruct (k' =? k) eqn:E; simpl; auto.
  rewrite IH. now destruct (dict_get k d).
Qed.

Lemma dict_get_In d k v : dict_get k d = Some v -> In (k, v) d.
Proof.
  induction d as [|[k' v'] d IH]; simpl; [discriminate|].
  destruct (k' =? k) eqn:E; auto.
  apply Z.eqb_eq in E. intros [= ->]. subst. now left.
Qed.

Lemma dict_In_get d k v :
  NoDup (dict_keys d) -> In (k, v) d -> dict_get k d = Some v.
Proof.
  induction d as [|[k' v'] d IH]; simpl; [tauto|].
  intros Hnd [H | H]; inversion Hnd as [|? ? Hni Hnd']; subst.
  - injection H as -> ->. now rewrite Z.eqb_refl.
  - destruct (k' =? k) eqn:E; auto.
    apply Z.eqb_eq in E. subst k'. exfalso. apply Hni.
    change k with (fst (k, v)). now apply in_map.
Qed.
End DictFacts.

(** ** Stable sorting *)

Section StableSortFacts.
Context {A : Type} (leb : A -> A -> bool).

Lemma stable_insert_perm x l : Permutation (x :: l) (stable_insert leb x l).
Proof.
  induction l as [|y l IH]; simpl; auto.
  destruct (leb x y); auto.
  eapply perm_trans; [apply perm_swap | now apply perm_skip].
Qed.

Lemma stable_sort_perm l : Permutation l (stable_sort leb l).
Proof.
  induction l as [|x l IH]; simpl; auto.
  eapply perm_trans; [apply perm_skip, IH | apply stable_insert_perm].
Qed.

Lemma stable_sort_In x l : In x (stable_sort leb l) <-> In x l.
Proof.
  split; apply Permutation_in;
    [apply Permutation_sym|]; apply stable_sort_perm.
Qed.

(** A sort that only moves an element past elements it is not [leb] to
    keeps the order of any class of mutually [leb] elements. *)
Lemma stable_insert_filter (p : A -> bool) x l :
  (forall y z, p y = true -> p z = true -> leb y z = true) ->
  filter p (stable_insert leb x l) = filter p (x :: l).
Proof.
  intros Hp. induction l as [|y l IH]; auto.
  simpl stable_insert. destruct (leb x y) eqn:E; auto.
  simpl in *. rewrite IH.
  destruct (p x) eqn:Px, (p y) eqn:Py; auto.
  rewrite (Hp x y Px Py) in E. discriminate.
Qed.

Lemma stable_sort_filter (p : A -> bool) l :
  (forall y z, p y = true -> p z = true -> leb y z = true) ->
  filter p (stable_sort leb l) = filter p l.
Proof.
  intros Hp. induction l as [|x l IH]; auto. simpl stable_sort.
  rewrite stable_insert_filter by assumption. simpl. now rewrite IH.
Qed.

Hypothesis leb_total : forall x y, leb x y = true \/ leb y x = true.
Hypothesis leb_trans :
  forall x y z, leb x y = true -> leb y z = true -> leb x z = true.

Lemma sortedb_insert x l :
  sortedb leb l = true -> sortedb leb (stable_insert leb x l) = true.
Proof.
  induction l as [|y l IH]; simpl; auto.
  intros H. apply andb_true_iff in H as [Hy Hl].
  destruct (leb x y) eqn:E; simpl.
  - rewrite E, Hy, Hl. simpl. rewrite andb_true_r.
    apply forallb_forall. intros z Hz.
    rewrite forallb_forall in Hy. eauto.
  - rewrite (IH Hl), andb_true_r.
    apply forallb_forall. intros z Hz.
    apply (Permutation_in _ (Permutation_sym (stable_insert_perm x l))) in Hz.
    destruct Hz as [<- | Hz].
    + destruct (leb_total x y) as [H | H]; congruence.
    + rewrite forallb_forall in Hy. auto.
Qed.

Lemma sortedb_stable_sort l : sortedb leb (stable_sort leb l) = true.
Proof.
  induction l as [|x l IH]; simpl; auto using sortedb_insert.
Qed.
End StableSortFacts.

Lemma sortedb_StronglySorted {A : Type} (leb : A -> A -> bool) l :
  sortedb leb l = true <-> StronglySorted (fun x y => leb x y = true) l.
Proof.
  induction l as [|x l IH]; simpl.
  - split; auto using SSorted_nil.
  - rewrite andb_true_iff, IH, forallb_forall, <- Forall_forall. split.
    + intros [H1 H2]. now constructor.
    + intros H. inversion H; subst. auto.
Qed.

(** ** The suspect aggregation *)

Lemma sum_reviews_app l1 l2 :
  sum_reviews (l1 ++ l2) = sum_reviews l1 + sum_reviews l2.
Proof.
  unfold sum_reviews. induction l1 as [|c l1 IH]; simpl; lia.
Qed.

(** One run of the loop body, seen from the entry of any student. *)
Lemma dict_get_credit c s sid d :
  dict_get sid (credit c s d) = credited c s sid (dict_get sid d).
Proof.
  unfold credit, credited, dict_mem.
  destruct (student_id s =? sid) eqn:E.
  - apply Z.eqb_eq in E. subst sid.
    destruct (dict_get (student_id s) d) as [e|] eqn:G; simpl.
    + rewrite G. apply dict_get_set_same.
    + rewrite dict_get_set_same. apply dict_get_set_same.
  - apply Z.eqb_neq in E.
    assert (Hne : sid <> student_id s) by congruence.
    destruct (dict_get (student_id s) d) as [e|] eqn:G; simpl.
    + rewrite G. now apply dict_get_set_other.
    + rewrite dict_get_set_same.
      now rewrite !dict_get_set_other by assumption.
Qed.

Lemma dict_keys_credit c s d :
  dict_keys (credit c s d)
  = if dict_mem (student_id s) d then dict_keys d
    else dict_keys d ++ [student_id s].
Proof.
  unfold credit. destruct (dict_mem (student_id s) d) eqn:M; simpl.
  - unfold dict_mem in M.
    destruct (dict_get (student_id s) d) eqn:G; [|discriminate].
    rewrite dict_keys_set. unfold dict_mem. now rewrite G.
  - rewrite dict_get_set_same, dict_keys_set.
    unfold dict_mem at 1. rewrite dict_get_set_same.
    now rewrite dict_keys_set, M.
Qed.

Lemma aggregate_snoc cs c :
  aggregate (cs ++ [c]) = credit_both (aggregate cs) c.
Proof. unfold aggregate. now rewrite fold_left_app. Qed.

Lemma participants_snoc cs c :
  participants (cs ++ [c])
  = participants cs ++ [submission_student (submission_a c);
                        submission_student (submission_b c)].
Proof. unfold participants. now rewrite flat_map_app. Qed.

Lemma credits_absent sid cs :
  find (fun s => student_id s =? sid) (participants cs) = None ->
  flat_map (credits sid) cs = [].
Proof.
  induction cs as [|c cs IH]; simpl; auto. unfold credits at 1.
  destruct (student_id (submission_student (submission_a c)) =? sid);
    [discriminate|].
  destruct (student_id (submission_student (submission_b c)) =? sid);
    [discriminate|].
  auto.
Qed.

Lemma find_app {A : Type} (p : A -> bool) l1 l2 :
  find p (l1 ++ l2)
  = match find p l1 with Some x => Some x | None => find p l2 end.
Proof. induction l1 as [|x l1 IH]; simpl; auto. now destruct (p x). Qed.

Lemma expected_entry_snoc sid cs c :
  expected_entry sid (cs ++ [c])
  = credited c (submission_student (submission_b c)) sid
      (credited c (submission_student (submission_a c)) sid
         (expected_entry sid cs)).
Proof.
  unfold expected_entry, credited.
  rewrite participants_snoc, flat_map_app, sum_reviews_app, find_app.
  simpl flat_map. rewrite app_nil_r.
  destruct (find (fun s => student_id s =? sid) (participants cs)) as [s|] eqn:F.
  - unfold credits at 2 4. simpl.
    destruct (student_id (submission_student (submission_a c)) =? sid),
      (student_id (submission_student (submission_b c)) =? sid); simpl;
      rewrite ?app_nil_r, <- ?app_assoc; simpl;
      rewrite ?Z.add_0_r, ?Z.add_assoc; reflexivity.
  - rewrite (credits_absent _ _ F). unfold credits. simpl.
    destruct (student_id (submission_student (submission_a c)) =? sid),
      (student_id (submission_student (submission_b c)) =? sid); simpl;
      rewrite ?Z.add_0_r; reflexivity.
Qed.

(** The aggregation, student by student: the key of the first participant
    with that id, and every credit in loop order. *)
Lemma aggregate_get sid cs :
  dict_get sid (aggregate cs) = expected_entry sid cs.
Proof.
  induction cs as [|c cs IH] using rev_ind; auto.
  rewrite aggregate_snoc, expected_entry_snoc. unfold credit_both.
  now rewrite !dict_get_credit, IH.
Qed.

Lemma first_occurrences_In k l : In k (first_occurrences l) <-> In k l.
Proof.
  induction l as [|k' l IH]; simpl; [tauto|].
  rewrite filter_In, IH, negb_true_iff, Z.eqb_neq.
  destruct (Z.eq_dec k' k); intuition congruence.
Qed.

Lemma first_occurrences_NoDup l : NoDup (first_occurrences l).
Proof.
  induction l as [|k l IH]; simpl; constructor.
  - rewrite filter_In, Z.eqb_refl. intros [_ H]. discriminate.
  - now apply NoDup_filter.
Qed.

Lemma first_occurrences_snoc l k :
  first_occurrences (l ++ [k])
  = if existsb (Z.eqb k) l then first_occurrences l
    else first_occurrences l ++ [k].
Proof.
  induction l as [|k' l IH]; simpl; auto.
  rewrite IH. destruct (k =? k') eqn:E; simpl.
  - apply Z.eqb_eq in E. subst k'. f_equal.
    destruct (existsb (Z.eqb k) l); auto.
    rewrite filter_app. simpl. rewrite Z.eqb_refl. simpl. now rewrite app_nil_r.
  - destruct (existsb (Z.eqb k) l); auto.
    rewrite filter_app. simpl. rewrite E. reflexivity.
Qed.

Lemma dict_mem_existsb {V : Type} (d : dict V) k :
  dict_mem k d = existsb (Z.eqb k) (dict_keys d).
Proof.
  unfold dict_mem. induction d as [|[k' v] d IH]; simpl; auto.
  rewrite (Z.eqb_sym k k'). destruct (k' =? k); auto.
Qed.

Lemma dict_keys_credit_first c s d l :
  dict_keys d = first_occurrences l ->
  dict_keys (credit c s d) = first_occurrences (l ++ [student_id s]).
Proof.
  intros H. rewrite dict_keys_credit, dict_mem_existsb, H.
  rewrite first_occurrences_snoc.
  replace (existsb (Z.eqb (student_id s)) (first_occurrences l))
    with (existsb (Z.eqb (student_id s)) l); auto.
  apply eq_true_iff_eq. rewrite !existsb_exists.
  split; intros [x [Hx E]]; exists x; split; auto;
    now apply first_occurrences_In.
Qed.

(** The dictionary holds the students in the order the loop first meets
    them. *)
Lemma aggregate_keys cs :
  dict_keys (aggregate cs)
  = first_occurrences (map student_id (participants cs)).
Proof.
  induction cs as [|c cs IH] using rev_ind; auto.
  rewrite aggregate_snoc, participants_snoc. unfold credit_both.
  change [submission_student (submission_a c);
          submission_student (submission_b c)]
    with ([submission_student (submission_a c)]
          ++ [submission_student (submission_b c)]).
  rewrite app_assoc, !map_app. simpl map.
  now apply dict_keys_credit_first, dict_keys_credit_first.
Qed.

Lemma aggregate_NoDup cs : NoDup (dict_keys (aggregate cs)).
Proof. rewrite aggregate_keys. apply first_occurrences_NoDup. Qed.

Lemma marked_comparisons_In table course c :
  In c (marked_comparisons table course)
  <-> In c table
      /\ exercise_course (submission_exercise (submission_a c)) = course_id course
      /\ 5 <= review c.
Proof.
  unfold marked_comparisons, order_by, marked.
  rewrite stable_sort_In, filter_In, andb_true_iff, Z.eqb_eq, Z.leb_le.
  tauto.
Qed.

Lemma credits_In sid c c' :
  In c' (credits sid c)
  -> c' = c
     /\ (student_id (submission_student (submission_a c)) = sid
         \/ student_id (submission_student (submission_b c)) = sid).
Proof.
  unfold credits. intros H. apply in_app_or in H as [H | H].
  - destruct (_ =? sid) eqn:E in H; [|destruct H].
    apply Z.eqb_eq in E. destruct H as [<- | []]. auto.
  - destruct (_ =? sid) eqn:E in H; [|destruct H].
    apply Z.eqb_eq in E. destruct H as [<- | []]. auto.
Qed.

(** C1 (amended): the suspect list of [marked_submissions] is sorted
    descending by each student's summed review score; students with equal
    sums keep the order of the dictionary, which is the order in which the
    loop first meets them (comparisons by creation time of submission_a,
    the student of submission_a before the student of submission_b). *)
Theorem marked_submissions_sorted_by_sum table course :
  sortedb by_sum_desc (marked_submissions table course) = true
  /\ (forall total,
        filter (fun e => entry_sum e =? total) (marked_submissions table course)
        = filter (fun e => entry_sum e =? total)
                 (dict_values (suspects_of table course)))
  /\ dict_keys (suspects_of table course)
     = first_occurrences
         (map student_id (participants (marked_comparisons table course))).
Proof.
  unfold marked_submissions, sorted_reverse. repeat split.
  - apply (sortedb_stable_sort by_sum_desc); unfold by_sum_desc.
    + intros x y. rewrite !Z.leb_le. lia.
    + intros x y z. rewrite !Z.leb_le. lia.
  - intros total. apply stable_sort_filter.
    intros y z Hy Hz. apply Z.eqb_eq in Hy, Hz. apply Z.leb_le. lia.
  - apply aggregate_keys.
Qed.

(** C1 (as stated) fails: one comparison reviewed 5 with the submission of
    B first credits B before A, and the tie stays in that order. *)
Lemma marked_submissions_tie_in_loop_order :
  marked_submissions [comparison_BA] course_X
  = [mkSuspectEntry "B" 5 [comparison_BA];
     mkSuspectEntry "A" 5 [comparison_BA]]
  /\ sortedb by_sum_desc_key_asc
       (marked_submissions [comparison_BA] course_X) = false.
Proof. split; reflexivity. Qed.

(** C2: on the scenario of course X (comparisons (A,B) review 0, (A,C)
    review 7, (B,C) review 6) the suspect list is C with 13, A with 7 and
    B with 6, in that order. *)
Theorem marked_submissions_course_X :
  marked_submissions table_X course_X
  = [mkSuspectEntry "C" 13 [comparison_AC; comparison_BC];
     mkSuspectEntry "A" 7 [comparison_AC];
     mkSuspectEntry "B" 6 [comparison_BC]].
Proof. reflexivity. Qed.

(** C3: the aggregation runs over exactly the comparisons of the course
    whose review is at least 5, and the entry of every student holds, in
    loop order, one credit per endpoint the student has in them: the
    comparison appended to the list and its review added to the sum. *)
Theorem suspects_credit_both_students table course :
  (forall c,
      In c (marked_comparisons table course)
      <-> In c table
          /\ exercise_course (submission_exercise (submission_a c))
             = course_id course
          /\ 5 <= review c)
  /\ (forall sid,
        dict_get sid (suspects_of table course)
        = expected_entry sid (marked_comparisons table course)).
Proof.
  split.
  - intros c. apply marked_comparisons_In.
  - intros sid. apply aggregate_get.
Qed.

(** C9: every entry of the returned list is the entry of a student of the
    marked comparisons; its sum is the sum of the reviews of its list, and
    every comparison of its list is reviewed at least 5 and has that
    student as an endpoint. *)
Theorem marked_submissions_entries table course :
  Forall
    (fun e =>
       entry_sum e = sum_reviews (entry_comparisons e)
       /\ exists s,
           In s (participants (marked_comparisons table course))
           /\ entry_key e = student_key s
           /\ Forall
                (fun c =>
                   5 <= review c
                   /\ (student_id (submission_student (submission_a c))
                       = student_id s
                       \/ student_id (submission_student (submission_b c))
                          = student_id s))
                (entry_comparisons e))
    (marked_submissions table course).
Proof.
  apply Forall_forall. intros e He.
  unfold marked_submissions, sorted_reverse in He.
  apply stable_sort_In in He. unfold dict_values in He.
  apply in_map_iff in He as [[k e'] [E Hin]]. simpl in E. subst e'.
  unfold suspects_of in Hin.
  apply dict_In_get in Hin; [|apply aggregate_NoDup].
  rewrite aggregate_get in Hin. unfold expected_entry in Hin.
  destruct (find _ _) as [s|] eqn:F in Hin; [|discriminate].
  injection Hin as <-. simpl. split; auto.
  apply find_some in F as [Hs Hid]. apply Z.eqb_eq in Hid.
  exists s. repeat split; auto.
  apply Forall_forall. intros c Hc.
  apply in_flat_map in Hc as [c0 [Hc0 Hc]].
  apply credits_In in Hc as [-> Hend].
  apply marked_comparisons_In in Hc0. rewrite Hid. tauto.
Qed.

(** C10: when both submissions of a marked comparison are by the same
    student, the entry of that student holds the comparison twice in a
    row and its sum counts the review twice. *)
Theorem same_student_credited_twice table course before c after sid :
  marked_comparisons table course = before ++ c :: after ->
  student_id (submission_student (submission_a c)) = sid ->
  student_id (submission_student (submission_b c)) = sid ->
  exists e,
    dict_get sid (suspects_of table course) = Some e
    /\ entry_comparisons e
       = flat_map (credits sid) before ++ [c; c] ++ flat_map (credits sid) after
    /\ entry_sum e
       = sum_reviews (flat_map (credits sid) before) + 2 * review c
         + sum_reviews (flat_map (credits sid) after).
Proof.
  intros Hcs Ha Hb. unfold suspects_of.
  rewrite aggregate_get, Hcs. unfold expected_entry.
  assert (Hc : credits sid c = [c; c]).
  { unfold credits. rewrite Ha, Hb, Z.eqb_refl. reflexivity. }
  destruct (find _ _) as [s|] eqn:F.
  - eexists. split; [reflexivity|].
    cbn [entry_comparisons entry_sum].
    rewrite flat_map_app. cbn [flat_map]. rewrite Hc. split; auto.
    rewrite !sum_reviews_app.
    replace (sum_reviews [c; c]) with (2 * review c)
      by (unfold sum_reviews; cbn [fold_right]; lia).
    lia.
  - exfalso. apply credits_absent in F.
    rewrite flat_map_app in F. simpl in F. rewrite Hc in F.
    destruct (flat_map (credits sid) before); discriminate.
Qed.

Lemma same_student_credited_twice_witness :
  exists e,
    dict_get 1 (suspects_of [comparison_AA; comparison_BA] course_X) = Some e
    /\ entry_comparisons e
       = flat_map (credits 1) [] ++ [comparison_AA; comparison_AA]
         ++ flat_map (credits 1) [comparison_BA]
    /\ entry_sum e
       = sum_reviews (flat_map (credits 1) []) + 2 * review comparison_AA
         + sum_reviews (flat_map (credits 1) [comparison_BA]).
Proof.
  apply (same_student_credited_twice
           [comparison_AA; comparison_BA] course_X [] comparison_AA
           [comparison_BA] 1); reflexivity.
Defined.

(** ** Request values *)

Lemma querydict_get_mem k q :
  querydict_mem k q = match querydict_get k q with Some _ => true | None => false end.
Proof.
  unfold querydict_mem. induction q as [|[k' v] q IH]; simpl; auto.
  rewrite IH. destruct (querydict_get k q); [apply orb_true_r|].
  rewrite orb_false_r. now destruct (k' =? k)%string.
Qed.

(** ** build_graph *)

Section BuildGraphFacts.
Context {G : Type} (builder : string -> string -> Raises G).

(** C4 (amended): [build_graph] answers 400 with its message exactly
    when the POST body has no [minSimilarity]; a value that is present,
    well formed or not, goes to the graph builder as it is, and the view
    answers the builder's graph as JSON or lets the builder's exception
    pass. *)
Theorem build_graph_answers request course :
  build_graph builder request course
  = match querydict_get "minSimilarity" (POST request) with
    | None => Return (HttpResponse build_graph_400 400)
    | Some min_similarity =>
        match builder (course_key course) min_similarity with
        | Return graph_data => Return (JsonResponse graph_data)
        | Raise e => Raise e
        end
    end.
Proof.
  unfold build_graph. rewrite querydict_get_mem.
  destruct (querydict_get "minSimilarity" (POST request)) eqn:E.
  - destruct (POST request); [discriminate | reflexivity].
  - now rewrite orb_true_r.
Qed.
End BuildGraphFacts.

(** C4 (as stated) fails: for the malformed value "abc" and the negative
    value "-1" the view returns no 400 response.  With the builder of the
    spec its InvalidArgument leaves the view as an exception; with a
    builder that accepts every value the view answers its data as JSON. *)
Lemma build_graph_malformed_not_400 :
  build_graph (generate_match_graph KeepMax [course_X] table_X)
    (request_post [("minSimilarity", "abc")] true) course_X
  = Raise InvalidArgument
  /\ build_graph (generate_match_graph KeepMax [course_X] table_X)
       (request_post [("minSimilarity", "-1")] true) course_X
     = Raise InvalidArgument
  /\ build_graph (fun _ _ => Return tt)
       (request_post [("minSimilarity", "abc")] true) course_X
     = Return (JsonResponse tt).
Proof. repeat split; reflexivity. Qed.

(** ** comparison *)

Section ComparisonFacts.
Variable reviewer :
  Comparison -> string -> ComparisonTable -> bool * Comparison * ComparisonTable.

(** C6 (amended): a POST to the review endpoint of a comparison that
    exists calls [update_review] when the POST has a [review] value.  An
    AJAX request is answered with the JSON object [{success: result}],
    where [result] is false when there is no [review] value and otherwise
    the flag that [update_review] returns; a request that is not an AJAX
    request is answered with the rendered comparison page, which shows
    the comparison as [update_review] left it. *)
Theorem comparison_post_response table request exercise ak bk ck self :
  get_object_or_404 table exercise ak bk ck = Return self ->
  method request = "POST" ->
  fst (comparison reviewer table request exercise ak bk ck)
  = if is_ajax request
    then Return
           (JsonResponse
              [("success",
                match querydict_get "review" (POST request) with
                | Some new_score => fst (fst (reviewer self new_score table))
                | None => false
                end)])
    else Return
           (comparison_page request
              match querydict_get "review" (POST request) with
              | Some new_score => snd (fst (reviewer self new_score table))
              | None => self
              end).
Proof.
  intros Hget Hpost. unfold comparison, post_review.
  rewrite Hget, Hpost, querydict_get_mem. simpl.
  destruct (querydict_get "review" (POST request)) as [v|].
  - destruct (reviewer self v table) as [[r c'] t']. simpl.
    now destruct (is_ajax request).
  - simpl. now destruct (is_ajax request).
Qed.
End ComparisonFacts.

Lemma comparison_post_response_witness :
  fst (comparison (update_review 10) table_X
         (request_post [("review", "6")] true) exercise_E "A" "B" 1)
  = Return (JsonResponse [("success", true)])
  /\ fst (comparison (update_review 10) table_X
            (request_post [("review", "6")] false) exercise_E "A" "B" 1)
     = Return (comparison_page (request_post [("review", "6")] false)
                 (set_review comparison_AB 6)).
Proof.
  split.
  - apply (comparison_post_response (update_review 10) table_X
             (request_post [("review", "6")] true) exercise_E "A" "B" 1
             comparison_AB); reflexivity.
  - apply (comparison_post_response (update_review 10) table_X
             (request_post [("review", "6")] false) exercise_E "A" "B" 1
             comparison_AB); reflexivity.
Defined.

(** C6 (as stated) fails: a POST that is not an AJAX request is answered
    with the rendered comparison page, not with [{success: bool}]: without
    a [review] value, where [update_review] is not called, and with one. *)
Lemma comparison_plain_post_renders :
  fst (comparison (update_review 10) table_X
         (request_post [] false) exercise_E "A" "B" 1)
  = Return (render "review/comparison.html"
              (mkComparisonContext comparison_AB false
                 submission_of_A submission_of_B))
  /\ fst (comparison (update_review 10) table_X
            (request_post [("review", "6")] false) exercise_E "A" "B" 1)
     = Return (render "review/comparison.html"
                 (mkComparisonContext (set_review comparison_AB 6) false
                    submission_of_A submission_of_B)).
Proof. split; reflexivity. Qed.

(** ** The review state machine *)

Section ReviewFacts.
Variable max_review : Z.

Lemma update_review_invalid self new_score table :
  acceptable max_review new_score = false ->
  update_review max_review self new_score table = (false, self, table).
Proof.
  unfold acceptable, update_review.
  destruct (parse_int new_score) as [r|]; auto. now intros ->.
Qed.

Lemma update_review_valid self new_score table :
  acceptable max_review new_score = true ->
  exists r,
    parse_int new_score = Some r /\ review (set_review self r) = r
    /\ update_review max_review self new_score table
       = (true, set_review self r, save (set_review self r) table).
Proof.
  unfold acceptable, update_review.
  destruct (parse_int new_score) as [r|]; [|discriminate].
  intros ->. eauto.
Qed.

Lemma set_review_again c r : set_review (set_review c r) r = set_review c r.
Proof. reflexivity. Qed.

Lemma save_again c table : save c (save c table) = save c table.
Proof.
  unfold save. rewrite map_map. apply map_ext. intros row.
  destruct (pk row =? pk c) eqn:E; [now rewrite Z.eqb_refl | now rewrite E].
Qed.

(** The saved row is the one the lookup finds afterwards. *)
Lemma lookup_after_save table exercise ak bk ck self r :
  get_object_or_404 table exercise ak bk ck = Return self ->
  get_object_or_404 (save (set_review self r) table) exercise ak bk ck
  = Return (set_review self r).
Proof.
  unfold get_object_or_404.
  destruct (find _ table) as [c|] eqn:F; [|discriminate].
  intros [= ->].
  assert (Hself : comparison_lookup exercise ak bk ck (set_review self r) = true).
  { apply find_some in F as [_ F]. exact F. }
  enough (H : find (comparison_lookup exercise ak bk ck)
                (save (set_review self r) table) = Some (set_review self r))
    by now rewrite H.
  set (c := set_review self r) in *.
  induction table as [|row table IH]; [discriminate|].
  change (save c (row :: table))
    with ((if pk row =? pk c then c else row) :: save c table).
  cbn [find] in F |- *.
  destruct (pk row =? pk c) eqn:E.
  - now rewrite Hself.
  - destruct (comparison_lookup exercise ak bk ck row) eqn:L; auto.
    injection F as ->. subst c. simpl in E. now rewrite Z.eqb_refl in E.
Qed.

(** C5: a review value that is malformed or outside the scale is
    rejected: [update_review] reports failure and changes neither the
    comparison nor the table, and the view that posts it leaves the
    table as it was and answers an AJAX request with success false. *)
Theorem update_review_rejects_invalid
  table request exercise ak bk ck self new_score :
  acceptable max_review new_score = false ->
  get_object_or_404 table exercise ak bk ck = Return self ->
  method request = "POST" ->
  querydict_get "review" (POST request) = Some new_score ->
  update_review max_review self new_score table = (false, self, table)
  /\ snd (comparison (update_review max_review) table request
            exercise ak bk ck) = table
  /\ (is_ajax request = true ->
      fst (comparison (update_review max_review) table request
             exercise ak bk ck)
      = Return (JsonResponse [("success", false)])).
Proof.
  intros Hbad Hget Hpost Hval.
  pose proof (update_review_invalid self new_score table Hbad) as Hu.
  split; auto.
  unfold comparison, post_review.
  rewrite Hget, Hpost, querydict_get_mem, Hval. simpl. rewrite Hu.
  destruct (is_ajax request); split; auto; discriminate.
Qed.

(** C7: posting the same valid score a second time reports success
    again and leaves the comparison and the table as the first post left
    them, for [update_review] and for the view that calls it. *)
Theorem update_review_idempotent
  table request exercise ak bk ck self new_score :
  acceptable max_review new_score = true ->
  get_object_or_404 table exercise ak bk ck = Return self ->
  method request = "POST" ->
  querydict_get "review" (POST request) = Some new_score ->
  (exists self1 table1,
      update_review max_review self new_score table = (true, self1, table1)
      /\ update_review max_review self1 new_score table1
         = (true, self1, table1))
  /\ snd (comparison (update_review max_review)
            (snd (comparison (update_review max_review) table request
                    exercise ak bk ck))
            request exercise ak bk ck)
     = snd (comparison (update_review max_review) table request
              exercise ak bk ck).
Proof.
  intros Hok Hget Hpost Hval.
  destruct (update_review_valid self new_score table Hok)
    as [r [Hr [_ Hu]]].
  assert (Hu2 : forall t, update_review max_review (set_review self r)
                            new_score t
                          = (true, set_review self r,
                             save (set_review self r) t)).
  { intros t.
    destruct (update_review_valid (set_review self r) new_score t Hok)
      as [r' [Hr' [_ Hu']]].
    rewrite Hr in Hr'. injection Hr' as <-. exact Hu'. }
  split.
  - exists (set_review self r), (save (set_review self r) table).
    split; auto. now rewrite Hu2, save_again.
  - assert (Hfirst : snd (comparison (update_review max_review) table
                            request exercise ak bk ck)
                     = save (set_review self r) table).
    { unfold comparison, post_review.
      rewrite Hget, Hpost, querydict_get_mem, Hval. simpl. rewrite Hu.
      now destruct (is_ajax request). }
    rewrite Hfirst. unfold comparison, post_review.
    rewrite (lookup_after_save _ _ _ _ _ _ r Hget).
    rewrite Hpost, querydict_get_mem, Hval. simpl. rewrite Hu2, save_again.
    now destruct (is_ajax request).
Qed.
End ReviewFacts.

Lemma update_review_rejects_invalid_witness :
  update_review 10 comparison_AB "999" table_X = (false, comparison_AB, table_X)
  /\ snd (comparison (update_review 10) table_X
            (request_post [("review", "999")] true) exercise_E "A" "B" 1)
     = table_X
  /\ (is_ajax (request_post [("review", "999")] true) = true ->
      fst (comparison (update_review 10) table_X
             (request_post [("review", "999")] true) exercise_E "A" "B" 1)
      = Return (JsonResponse [("success", false)])).
Proof.
  apply (update_review_rejects_invalid 10 table_X
           (request_post [("review", "999")] true) exercise_E "A" "B" 1
           comparison_AB "999"); reflexivity.
Defined.

Lemma update_review_idempotent_witness :
  (exists self1 table1,
      update_review 10 comparison_AB "6" table_X = (true, self1, table1)
      /\ update_review 10 self1 "6" table1 = (true, self1, table1))
  /\ snd (comparison (update_review 10)
            (snd (comparison (update_review 10) table_X
                    (request_post [("review", "6")] true)
                    exercise_E "A" "B" 1))
            (request_post [("review", "6")] true) exercise_E "A" "B" 1)
     = snd (comparison (update_review 10) table_X
              (request_post [("review", "6")] true) exercise_E "A" "B" 1).
Proof.
  apply (update_review_idempotent 10 table_X
           (request_post [("review", "6")] true) exercise_E "A" "B" 1
           comparison_AB "6"); reflexivity.
Defined.

(** The scores of the spec on a scale of 0 to 10: -1 and 999 are rejected,
    6 is accepted. *)
Example update_review_scale_10 :
  update_review 10 comparison_BC "-1" table_X = (false, comparison_BC, table_X)
  /\ update_review 10 comparison_BC "999" table_X
     = (false, comparison_BC, table_X)
  /\ update_review 10 comparison_BC "six" table_X
     = (false, comparison_BC, table_X)
  /\ update_review 10 comparison_AB "6" table_X
     = (true, set_review comparison_AB 6,
        [set_review comparison_AB 6; comparison_AC; comparison_BC]).
Proof. repeat split; reflexivity. Qed.

(** ** The match graph builder *)

Lemma pair_eqb_eq p q : pair_eqb p q = true <-> p = q.
Proof.
  unfold pair_eqb. destruct p as [a b], q as [a' b']. simpl.
  rewrite andb_true_iff, !String.eqb_eq. split; [intros [-> ->] | intros [= -> ->]]; auto.
Qed.

Lemma same_pair_pair_eqb e e' :
  same_pair e e' = pair_eqb (edge_pair e) (edge_pair e').
Proof. reflexivity. Qed.

(** Adding an edge under the keep-max policy, seen from any student pair. *)
Lemma edge_lookup_add_max p e g :
  edge_lookup p (add_max_edge e g)
  = if pair_eqb p (edge_pair e) then Some (keep_max e (edge_lookup p g))
    else edge_lookup p g.
Proof.
  unfold edge_lookup. induction g as [|e' g IH]; simpl; auto.
  rewrite same_pair_pair_eqb.
  destruct (pair_eqb (edge_pair e) (edge_pair e')) eqn:S.
  - apply pair_eqb_eq in S.
    assert (Hsame : edge_pair
                      (if Qle_bool (edge_similarity e) (edge_similarity e')
                       then e' else e) = edge_pair e').
    { now destruct (Qle_bool _ _). }
    simpl. rewrite Hsame, S. now destruct (pair_eqb p (edge_pair e')).
  - simpl. destruct (pair_eqb p (edge_pair e')) eqn:P; auto.
    apply pair_eqb_eq in P. subst p.
    destruct (pair_eqb (edge_pair e') (edge_pair e)) eqn:P'; auto.
    apply pair_eqb_eq in P'. rewrite P' in S.
    assert (pair_eqb (edge_pair e) (edge_pair e) = true)
      by now apply pair_eqb_eq.
    congruence.
Qed.

Lemma edge_pairs_add_max e g :
  map edge_pair (add_max_edge e g)
  = match edge_lookup (edge_pair e) g with
    | Some _ => map edge_pair g
    | None => map edge_pair g ++ [edge_pair e]
    end.
Proof.
  unfold edge_lookup. induction g as [|e' g IH]; simpl; auto.
  rewrite same_pair_pair_eqb.
  destruct (pair_eqb (edge_pair e) (edge_pair e')) eqn:S; simpl.
  - apply pair_eqb_eq in S. f_equal. now destruct (Qle_bool _ _).
  - rewrite IH. now destruct (find _ g).
Qed.

Lemma edge_lookup_none p g :
  edge_lookup p g = None -> ~ In p (map edge_pair g).
Proof.
  unfold edge_lookup. intros F H. apply in_map_iff in H as [e [<- He]].
  apply (find_none _ _ F) in He.
  assert (pair_eqb (edge_pair e) (edge_pair e) = true) by now apply pair_eqb_eq.
  congruence.
Qed.

Lemma add_max_edge_NoDup e g :
  NoDup (map edge_pair g) -> NoDup (map edge_pair (add_max_edge e g)).
Proof.
  intros H. rewrite edge_pairs_add_max.
  destruct (edge_lookup (edge_pair e) g) eqn:F; auto.
  apply NoDup_app; auto.
  - constructor; [intros [] | constructor].
  - intros p Hp [<- | []]. now apply edge_lookup_none in F.
Qed.

Lemma edge_lookup_In g e :
  NoDup (map edge_pair g) -> In e g -> edge_lookup (edge_pair e) g = Some e.
Proof.
  unfold edge_lookup. induction g as [|e' g IH]; simpl; [tauto|].
  intros Hnd [-> | H]; inversion Hnd as [|? ? Hni Hnd']; subst.
  - assert (E : pair_eqb (edge_pair e) (edge_pair e) = true)
      by now apply pair_eqb_eq.
    now rewrite E.
  - destruct (pair_eqb (edge_pair e) (edge_pair e')) eqn:E; auto.
    apply pair_eqb_eq in E. exfalso. apply Hni. rewrite <- E.
    now apply in_map.
Qed.

Section Thresholds.
Variables t1 t2 : Q.
Hypothesis t1_lt_t2 : (t1 < t2)%Q.

Lemma reaching_t2_t1 s :
  Qle_bool t2 s = true -> Qle_bool t1 s = true.
Proof. rewrite !Qle_bool_iff. lra. Qed.

(** Under keep-max, the graph of the higher threshold holds for every
    pair the edge of the lower threshold's graph, when it reaches the
    higher threshold. *)
Lemma keep_max_reaching cs g1 g2 :
  (forall p, edge_lookup p g2 = reaching t2 (edge_lookup p g1)) ->
  forall p,
    edge_lookup p (fold_left (build_step KeepMax t2) cs g2)
    = reaching t2 (edge_lookup p (fold_left (build_step KeepMax t1) cs g1)).
Proof.
  revert g1 g2. induction cs as [|c cs IH]; intros g1 g2 H; auto.
  simpl. apply IH. intros p. unfold build_step, add_edge.
  destruct (Qle_bool t2 (similarity c)) eqn:E2.
  - rewrite (reaching_t2_t1 _ E2), !edge_lookup_add_max, H.
    destruct (pair_eqb p (edge_pair (edge_of c))); auto.
    assert (Es : edge_similarity (edge_of c) = similarity c).
    { unfold edge_of. now destruct (String.leb _ _). }
    destruct (edge_lookup p g1) as [e'|]; simpl; rewrite ?Es.
    + destruct (Qle_bool t2 (edge_similarity e')) eqn:E'; simpl; rewrite ?Es.
      * destruct (Qle_bool (similarity c) (edge_similarity e'));
          now rewrite ?E', ?Es, ?E2.
      * destruct (Qle_bool (similarity c) (edge_similarity e')) eqn:L;
          rewrite ?Es, ?E2; auto.
        apply Qle_bool_iff in E2, L.
        assert (Qle_bool t2 (edge_similarity e') = true)
          by (apply Qle_bool_iff; lra).
        congruence.
    + now rewrite E2.
  - destruct (Qle_bool t1 (similarity c)) eqn:E1; auto.
    rewrite edge_lookup_add_max, H.
    destruct (pair_eqb p (edge_pair (edge_of c))); auto.
    assert (Es : edge_similarity (edge_of c) = similarity c).
    { unfold edge_of. now destruct (String.leb _ _). }
    destruct (edge_lookup p g1) as [e'|]; simpl; rewrite ?Es.
    + destruct (Qle_bool (similarity c) (edge_similarity e')) eqn:L; auto.
      rewrite Es, E2.
      destruct (Qle_bool t2 (edge_similarity e')) eqn:E'; auto.
      apply Qle_bool_iff in E'.
      assert (Qle_bool (similarity c) (edge_similarity e') = true).
      { apply Qle_bool_iff.
        destruct (Qlt_le_dec (edge_similarity e') (similarity c)); auto.
        assert (Qle_bool t2 (similarity c) = true)
          by (apply Qle_bool_iff; lra).
        congruence. }
      congruence.
    + now rewrite E2.
Qed.

Lemma keep_max_NoDup t cs g :
  NoDup (map edge_pair g) ->
  NoDup (map edge_pair (fold_left (build_step KeepMax t) cs g)).
Proof.
  revert g. induction cs as [|c cs IH]; intros g H; auto.
  simpl. apply IH. unfold build_step, add_edge.
  destruct (Qle_bool t (similarity c)); auto using add_max_edge_NoDup.
Qed.

Lemma keep_all_incl cs g1 g2 :
  incl g2 g1 ->
  incl (fold_left (build_step KeepAll t2) cs g2)
       (fold_left (build_step KeepAll t1) cs g1).
Proof.
  revert g1 g2. induction cs as [|c cs IH]; intros g1 g2 H; auto.
  simpl. apply IH. unfold build_step, add_edge.
  destruct (Qle_bool t2 (similarity c)) eqn:E2.
  - rewrite (reaching_t2_t1 _ E2).
    apply incl_app; [now apply incl_appl | apply incl_appr, incl_refl].
  - destruct (Qle_bool t1 (similarity c)); auto. now apply incl_appl.
Qed.

(** C8: for thresholds [t1 < t2], every edge of the match graph built
    with [t2] is an edge of the match graph built with [t1], under
    either edge multiplicity policy. *)
Theorem build_edges_monotone policy table course :
  incl (edges (build policy table course t2))
       (edges (build policy table course t1)).
Proof.
  unfold build, build_edges. simpl. destruct policy.
  - intros e He.
    set (cs := filter (in_course course) table) in *.
    assert (Hl : edge_lookup (edge_pair e)
                   (fold_left (build_step KeepMax t2) cs []) = Some e).
    { apply edge_lookup_In; auto. apply keep_max_NoDup. constructor. }
    rewrite (keep_max_reaching cs [] []) in Hl by reflexivity.
    destruct (edge_lookup _ (fold_left (build_step KeepMax t1) cs []))
      as [e1|] eqn:F; [|discriminate].
    simpl in Hl. destruct (Qle_bool t2 (edge_similarity e1)); [|discriminate].
    injection Hl as ->. now apply find_some in F.
  - apply keep_all_incl, incl_refl.
Qed.
End Thresholds.

Lemma build_edges_monotone_witness :
  incl (edges (build KeepMax table_X course_X (92 # 100)))
       (edges (build KeepMax table_X course_X (1 # 2))).
Proof.
  apply (build_edges_monotone (1 # 2) (92 # 100)); reflexivity.
Defined.

(** The graph of the scenario at threshold 0.5: the edges (A,B) and (B,C),
    the nodes A, B and C, without the edge (A,C). *)
Example build_course_X :
  build KeepMax table_X course_X (1 # 2)
  = mkMatchGraph ["A"; "B"; "C"]
      [mkEdge "A" "B" (9 # 10); mkEdge "B" "C" (95 # 100)]
  /\ generate_match_graph KeepMax [course_X] table_X "X" "0.5"
     = Return (build KeepMax table_X course_X (5 # 10)).
Proof. split; reflexivity. Qed.

(** * Further properties of the views *)

(** ** marked_submissions: what the suspect list holds *)

Lemma entries_total_app l1 l2 :
  entries_total (l1 ++ l2) = entries_total l1 + entries_total l2.
Proof. unfold entries_total. induction l1 as [|e l1 IH]; simpl; lia. Qed.

Lemma entries_total_perm l1 l2 :
  Permutation l1 l2 -> entries_total l1 = entries_total l2.
Proof. unfold entries_total. induction 1; simpl; lia. Qed.

Lemma entries_total_set k v (d : dict SuspectEntry) :
  entries_total (dict_values (dict_set k v d))
  = entries_total (dict_values d) + entry_sum v
    - match dict_get k d with Some e => entry_sum e | None => 0 end.
Proof.
  unfold dict_values, entries_total.
  induction d as [|[k' e'] d IH]; simpl; [lia|].
  destruct (k' =? k); simpl; lia.
Qed.

Lemma entries_total_credit c s d :
  entries_total (dict_values (credit c s d))
  = entries_total (dict_values d) + review c.
Proof.
  unfold credit, dict_mem.
  destruct (dict_get (student_id s) d) as [e|] eqn:G; simpl.
  - rewrite G, entries_total_set, G. simpl. lia.
  - rewrite dict_get_set_same, !entries_total_set, dict_get_set_same, G.
    simpl. lia.
Qed.

Lemma entries_total_aggregate cs :
  entries_total (dict_values (aggregate cs)) = 2 * sum_reviews cs.
Proof.
  induction cs as [|c cs IH] using rev_ind; auto.
  rewrite aggregate_snoc, sum_reviews_app. unfold credit_both.
  rewrite !entries_total_credit, IH.
  replace (sum_reviews [c]) with (review c)
    by (unfold sum_reviews; cbn [fold_right]; lia).
  lia.
Qed.

(** X1: the summed scores of the suspect list add up to twice the sum of
    the reviews of the marked comparisons: every marked comparison is
    counted once for each of its two submissions, and nothing else is. *)
Theorem marked_submissions_total table course :
  entries_total (marked_submissions table course)
  = 2 * sum_reviews (marked_comparisons table course).
Proof.
  unfold marked_submissions, sorted_reverse, suspects_of.
  rewrite <- (entries_total_perm _ _ (stable_sort_perm _ _)).
  apply entries_total_aggregate.
Qed.

Lemma participants_In sid cs :
  In sid (map student_id (participants cs))
  <-> exists c, In c cs /\ endpoint sid c.
Proof.
  unfold participants, endpoint. rewrite in_map_iff. split.
  - intros [s [<- Hs]]. apply in_flat_map in Hs as [c [Hc Hs]].
    exists c. simpl in Hs. intuition (subst; auto).
  - intros [c [Hc [H | H]]].
    + exists (submission_student (submission_a c)). split; auto.
      apply in_flat_map. exists c. simpl. auto.
    + exists (submission_student (submission_b c)). split; auto.
      apply in_flat_map. exists c. simpl. auto.
Qed.

(** X2: the suspect dictionary has exactly one entry per student that
    authored a submission of a marked comparison: a student id is a key
    exactly when it is an endpoint of one, no key repeats, and the
    returned list has one entry per key. *)
Theorem suspects_one_entry_per_student table course :
  (forall sid,
      In sid (dict_keys (suspects_of table course))
      <-> exists c, In c (marked_comparisons table course) /\ endpoint sid c)
  /\ NoDup (dict_keys (suspects_of table course))
  /\ List.length (marked_submissions table course)
     = List.length (dict_keys (suspects_of table course)).
Proof.
  unfold suspects_of. repeat split.
  - rewrite aggregate_keys, first_occurrences_In. apply participants_In.
  - rewrite aggregate_keys, first_occurrences_In. apply participants_In.
  - apply aggregate_NoDup.
  - unfold marked_submissions, sorted_reverse, suspects_of.
    rewrite <- (Permutation_length (stable_sort_perm _ _)).
    unfold dict_values, dict_keys. now rewrite !length_map.
Qed.

(** Every entry of the returned list is the expected entry of a student. *)
Lemma marked_submissions_expected table course e :
  In e (marked_submissions table course) ->
  exists sid,
    expected_entry sid (marked_comparisons table course) = Some e.
Proof.
  unfold marked_submissions, sorted_reverse. intros He.
  apply stable_sort_In in He. unfold dict_values in He.
  apply in_map_iff in He as [[k e'] [E Hin]]. simpl in E. subst e'.
  exists k. unfold suspects_of in Hin.
  apply dict_In_get in Hin; [|apply aggregate_NoDup].
  now rewrite aggregate_get in Hin.
Qed.

Lemma credits_present sid cs :
  (exists c, In c cs /\ endpoint sid c) -> flat_map (credits sid) cs <> [].
Proof.
  intros [c [Hc He]] E.
  assert (H : In c (flat_map (credits sid) cs)).
  { apply in_flat_map. exists c. split; auto. unfold credits.
    destruct He as [-> | ->]; rewrite Z.eqb_refl;
      [now left | apply in_or_app; right; now left]. }
  rewrite E in H. destruct H.
Qed.

Lemma sum_reviews_lower l :
  Forall (fun c => 5 <= review c) l ->
  5 * Z.of_nat (List.length l) <= sum_reviews l.
Proof.
  unfold sum_reviews. induction 1; simpl fold_right; simpl List.length; lia.
Qed.

(** X3: no student is listed without a marked comparison or with a low
    total: every entry has a non-empty comparison list and a summed score
    of at least 5 per listed comparison, so at least 5. *)
Theorem marked_submissions_sum_at_least_5 table course :
  Forall
    (fun e =>
       entry_comparisons e <> []
       /\ 5 * Z.of_nat (List.length (entry_comparisons e)) <= entry_sum e
       /\ 5 <= entry_sum e)
    (marked_submissions table course).
Proof.
  apply Forall_forall. intros e He.
  apply marked_submissions_expected in He as [sid He].
  unfold expected_entry in He.
  destruct (find _ _) as [s|] eqn:F in He; [|discriminate].
  injection He as <-. simpl.
  apply find_some in F as [Hs Hid]. apply Z.eqb_eq in Hid.
  assert (Hne : flat_map (credits sid) (marked_comparisons table course) <> []).
  { apply credits_present. apply participants_In. rewrite <- Hid.
    now apply in_map. }
  assert (Hlow : 5 * Z.of_nat (List.length (flat_map (credits sid)
                                         (marked_comparisons table course)))
                 <= sum_reviews (flat_map (credits sid)
                                   (marked_comparisons table course))).
  { apply sum_reviews_lower, Forall_forall. intros c Hc.
    apply in_flat_map in Hc as [c0 [Hc0 Hc]].
    apply credits_In in Hc as [-> _].
    now apply marked_comparisons_In in Hc0. }
  repeat split; auto.
  destruct (flat_map (credits sid) (marked_comparisons table course));
    [congruence | simpl List.length in Hlow; lia].
Qed.

(** X4: the suspect list is empty exactly when no comparison of the table
    is marked for the course. *)
Theorem marked_submissions_empty table course :
  marked_submissions table course = []
  <-> forall c, In c table -> marked course c = false.
Proof.
  split.
  - intros E c Hc. destruct (marked course c) eqn:M; auto. exfalso.
    assert (Hin : In c (marked_comparisons table course)).
    { unfold marked_comparisons, order_by.
      apply stable_sort_In, filter_In. auto. }
    assert (Hk : In (student_id (submission_student (submission_a c)))
                    (dict_keys (suspects_of table course))).
    { unfold suspects_of. rewrite aggregate_keys, first_occurrences_In.
      apply participants_In. exists c. split; auto. now left. }
    assert (Hlen : List.length (marked_submissions table course)
                   = List.length (dict_keys (suspects_of table course))).
    { unfold marked_submissions, sorted_reverse.
      rewrite <- (Permutation_length (stable_sort_perm _ _)).
      unfold dict_values, dict_keys. now rewrite !length_map. }
    rewrite E in Hlen. destruct (dict_keys (suspects_of table course));
      [destruct Hk | discriminate].
  - intros H. unfold marked_submissions, suspects_of, marked_comparisons.
    replace (filter (marked course) table) with (@nil Comparison);
      [reflexivity|].
    symmetry. induction table as [|c table IH]; auto. simpl.
    rewrite (H c) by now left. apply IH. intros c' Hc'. apply H. now right.
Qed.

Lemma filter_perm {A : Type} (p : A -> bool) l l' :
  Permutation l l' -> Permutation (filter p l) (filter p l').
Proof.
  induction 1; simpl; auto.
  - destruct (p x); auto.
  - destruct (p x), (p y); auto. apply perm_swap.
  - eapply perm_trans; eauto.
Qed.

Lemma marked_comparisons_perm table table' course :
  Permutation table table' ->
  Permutation (marked_comparisons table course)
              (marked_comparisons table' course).
Proof.
  intros H. unfold marked_comparisons, order_by.
  eapply perm_trans; [apply Permutation_sym, stable_sort_perm|].
  eapply perm_trans; [|apply stable_sort_perm]. now apply filter_perm.
Qed.

Lemma sum_reviews_perm l l' :
  Permutation l l' -> sum_reviews l = sum_reviews l'.
Proof. unfold sum_reviews. induction 1; simpl; lia. Qed.

Lemma find_perm_none {A : Type} (p : A -> bool) l l' x :
  Permutation l l' -> find p l = Some x -> find p l' = None -> False.
Proof.
  intros HP Hs Hn. apply find_some in Hs as [Hin Hp].
  apply (Permutation_in _ HP) in Hin.
  apply (find_none _ _ Hn) in Hin. congruence.
Qed.

(** X5: the total of a student does not depend on the order in which the
    comparisons are stored: for two tables with the same rows, a student
    has an entry in both or in neither, with the same summed score and the
    same comparisons up to order. *)
Theorem suspects_storage_order table table' course sid :
  Permutation table table' ->
  match dict_get sid (suspects_of table course),
        dict_get sid (suspects_of table' course) with
  | Some e, Some e' =>
      entry_sum e = entry_sum e'
      /\ Permutation (entry_comparisons e) (entry_comparisons e')
  | None, None => True
  | _, _ => False
  end.
Proof.
  intros HP. unfold suspects_of. rewrite !aggregate_get.
  pose proof (marked_comparisons_perm _ _ course HP) as Hcs.
  assert (Hps : Permutation (participants (marked_comparisons table course))
                            (participants (marked_comparisons table' course))).
  { unfold participants. now apply Permutation_flat_map. }
  unfold expected_entry.
  destruct (find _ (participants (marked_comparisons table course)))
    as [s|] eqn:F;
    destruct (find _ (participants (marked_comparisons table' course)))
    as [s'|] eqn:F'; auto.
  - simpl. split.
    + apply sum_reviews_perm. now apply Permutation_flat_map.
    + now apply Permutation_flat_map.
  - exact (find_perm_none _ _ _ _ Hps F F').
  - exact (find_perm_none _ _ _ _ (Permutation_sym Hps) F' F).
Qed.

Lemma suspects_storage_order_witness :
  match dict_get 3 (suspects_of table_X course_X),
        dict_get 3 (suspects_of (rev table_X) course_X) with
  | Some e, Some e' =>
      entry_sum e = entry_sum e'
      /\ Permutation (entry_comparisons e) (entry_comparisons e')
  | None, None => True
  | _, _ => False
  end.
Proof.
  apply (suspects_storage_order table_X (rev table_X) course_X 3).
  apply Permutation_rev.
Defined.

Lemma sortedb_credits (leb : Comparison -> Comparison -> bool) sid cs :
  (forall c, leb c c = true) ->
  sortedb leb cs = true -> sortedb leb (flat_map (credits sid) cs) = true.
Proof.
  intros Hrefl. induction cs as [|c cs IH]; auto.
  simpl. intros H. apply andb_true_iff in H as [Hc Hcs].
  specialize (IH Hcs).
  assert (Hall : forallb (leb c) (flat_map (credits sid) cs) = true).
  { apply forallb_forall. intros x Hx.
    apply in_flat_map in Hx as [c0 [Hc0 Hx]].
    apply credits_In in Hx as [-> _].
    rewrite forallb_forall in Hc. auto. }
  unfold credits at 1.
  destruct (student_id (submission_student (submission_a c)) =? sid),
    (student_id (submission_student (submission_b c)) =? sid);
    simpl; rewrite ?Hrefl, ?Hall, ?IH; auto.
Qed.

Lemma marked_comparisons_sorted table course :
  sortedb by_created (marked_comparisons table course) = true.
Proof.
  unfold marked_comparisons, order_by.
  apply (sortedb_stable_sort by_created); unfold by_created.
  - intros x y. rewrite !Z.leb_le. lia.
  - intros x y z. rewrite !Z.leb_le. lia.
Qed.

(** X6: the comparisons of every listed student are in ascending order of
    the creation time of their submission_a, the order of the query. *)
Theorem marked_submissions_comparisons_by_created table course :
  Forall (fun e => sortedb by_created (entry_comparisons e) = true)
         (marked_submissions table course).
Proof.
  apply Forall_forall. intros e He.
  apply marked_submissions_expected in He as [sid He].
  unfold expected_entry in He.
  destruct (find _ _) as [s|] in He; [|discriminate].
  injection He as <-. simpl.
  apply sortedb_credits; [|apply marked_comparisons_sorted].
  intros c. unfold by_created. apply Z.leb_refl.
Qed.

(** ** comparison: when the review is left alone *)

(** X7: the view calls [update_review] only for a POST that carries a
    [review] value and whose comparison exists: otherwise the outcome is
    the same whatever [update_review] is, and the table is left as it
    was. *)
Theorem comparison_no_update reviewer reviewer' table request exercise ak bk ck :
  method request <> "POST"
  \/ querydict_mem "review" (POST request) = false
  \/ get_object_or_404 table exercise ak bk ck = Raise Http404 ->
  comparison reviewer table request exercise ak bk ck
  = comparison reviewer' table request exercise ak bk ck
  /\ snd (comparison reviewer table request exercise ak bk ck) = table.
Proof.
  intros H. unfold comparison, post_review.
  destruct (get_object_or_404 table exercise ak bk ck) as [self|e] eqn:G;
    [|auto].
  destruct (method request =? "POST")%string eqn:M; [|auto].
  apply String.eqb_eq in M.
  destruct H as [H | [H | H]]; [congruence | | discriminate].
  rewrite H. now destruct (is_ajax request).
Qed.

Lemma comparison_no_update_witness :
  comparison (update_review 10) table_X
    (mkRequest "GET" [("review", "6")] [] true) exercise_E "A" "B" 1
  = comparison (fun c _ t => (true, c, t)) table_X
      (mkRequest "GET" [("review", "6")] [] true) exercise_E "A" "B" 1
  /\ snd (comparison (update_review 10) table_X
            (mkRequest "GET" [("review", "6")] [] true) exercise_E "A" "B" 1)
     = table_X.
Proof.
  apply (comparison_no_update (update_review 10) (fun c _ t => (true, c, t))
           table_X (mkRequest "GET" [("review", "6")] [] true)
           exercise_E "A" "B" 1).
  left. discriminate.
Defined.

(** ** leafs_with_radar_config and submittable_exercises *)

Lemma flat_map_Forall_ext {A B : Type} (f g : A -> list B) l :
  Forall (fun x => f x = g x) l -> flat_map f l = flat_map g l.
Proof. induction 1; simpl; congruence. Qed.

Lemma flat_map_nested {A B C : Type} (f : A -> list B) (g : B -> list C) l :
  flat_map g (flat_map f l) = flat_map (fun x => flat_map g (f x)) l.
Proof.
  induction l as [|x l IH]; simpl; auto. now rewrite flat_map_app, IH.
Qed.

Section ProviderExercisesFacts.
Context {Config : Type} (get_radar_config : ApiExercise -> option Config).

Lemma leafs_with_radar_config_of_leaves exercise :
  leafs_with_radar_config_of get_radar_config exercise
  = flat_map (yield_radar_config get_radar_config)
             (leaf_exercises_of exercise).
Proof.
  induction exercise as [data sub info children IH]
    using ApiExercise_forall_ind.
  destruct children as [|child children].
  - simpl. now rewrite app_nil_r.
  - cbn [leafs_with_radar_config_of leaf_exercises_of].
    rewrite flat_map_nested. now apply flat_map_Forall_ext.
Qed.

(** X8: [leafs_with_radar_config] yields the Radar configurations of the
    leaf exercises of the tree, left to right, and skips the leaves that
    have none; an exercise that has child exercises is never asked for a
    configuration of its own. *)
Theorem leafs_with_radar_config_leaves exercises :
  leafs_with_radar_config get_radar_config exercises
  = flat_map (yield_radar_config get_radar_config) (leaf_exercises exercises).
Proof.
  unfold leafs_with_radar_config, leaf_exercises.
  rewrite flat_map_nested. apply flat_map_ext. intros e.
  apply leafs_with_radar_config_of_leaves.
Qed.

Lemma submittable_leaves_app l1 l2 :
  submittable_leaves get_radar_config (l1 ++ l2)
  = raises_app (submittable_leaves get_radar_config l1)
               (submittable_leaves get_radar_config l2).
Proof.
  unfold submittable_leaves, raises_app.
  rewrite filter_app, existsb_app, flat_map_app.
  destruct (existsb lacks_exercise_info (filter is_submittable l1)); auto.
  now destruct (existsb lacks_exercise_info (filter is_submittable l2)).
Qed.

Lemma submittable_fold_leaves (of_exercise : ApiExercise -> Raises (list Config))
  (leaves_of : ApiExercise -> list ApiExercise) exercises :
  Forall (fun e => of_exercise e
                   = submittable_leaves get_radar_config (leaves_of e))
         exercises ->
  fold_right (fun e rest => raises_app (of_exercise e) rest) (Return [])
             exercises
  = submittable_leaves get_radar_config (flat_map leaves_of exercises).
Proof.
  induction 1 as [|e exercises He _ IH]; simpl; auto.
  now rewrite submittable_leaves_app, He, IH.
Qed.

Lemma submittable_exercises_of_leaves exercise :
  submittable_exercises_of get_radar_config exercise
  = submittable_leaves get_radar_config (leaf_exercises_of exercise).
Proof.
  induction exercise as [data sub info children IH]
    using ApiExercise_forall_ind.
  destruct children as [|child children].
  - unfold submittable_leaves. simpl.
    destruct sub as [[|]|]; simpl; auto.
    destruct info as [value|]; simpl; auto. now rewrite app_nil_r.
  - cbn [submittable_exercises_of leaf_exercises_of].
    now apply (submittable_fold_leaves
                 (submittable_exercises_of get_radar_config)).
Qed.

(** X9: [submittable_exercises] looks at the leaf exercises whose
    [is_submittable] is present and true; exercises with children and
    leaves that are not submittable yield nothing of their own.  When
    one of those leaves has no [exercise_info] key, indexing it raises
    [KeyError] and nothing is returned; otherwise the result is, left to
    right, the Radar configurations of those leaves, each read after
    the manual Radar configuration was put into its [exercise_info]. *)
Theorem submittable_exercises_leaves exercises :
  submittable_exercises get_radar_config exercises
  = if existsb lacks_exercise_info
         (filter is_submittable (leaf_exercises exercises))
    then Raise (KeyError "exercise_info")
    else Return
           (flat_map
              (fun leaf => yield_radar_config get_radar_config (patched leaf))
              (filter is_submittable (leaf_exercises exercises))).
Proof.
  unfold submittable_exercises, leaf_exercises.
  rewrite (submittable_fold_leaves
             (submittable_exercises_of get_radar_config) leaf_exercises_of).
  - reflexivity.
  - apply Forall_forall. intros e _. apply submittable_exercises_of_leaves.
Qed.

Lemma submittable_exercises_raises exercises e :
  submittable_exercises get_radar_config exercises = Raise e ->
  e = KeyError "exercise_info"
  /\ existsb lacks_exercise_info
       (filter is_submittable (leaf_exercises exercises)) = true.
Proof.
  unfold submittable_exercises.
  rewrite (submittable_fold_leaves
             (submittable_exercises_of get_radar_config) leaf_exercises_of)
    by (apply Forall_forall; intros x _;
        apply submittable_exercises_of_leaves).
  unfold submittable_leaves, leaf_exercises.
  destruct (existsb lacks_exercise_info _); [|discriminate].
  now intros [= <-].
Qed.
End ProviderExercisesFacts.

(** A submittable leaf without [exercise_info] ends the generator with
    the [KeyError]; the exercises of the scenario give "ex1" and "ex3". *)
Example submittable_exercises_scenario :
  submittable_exercises name_as_config
    [leaf_exercise "ex0" (Some true);
     ApiDict [("name", JStr "ex")] (Some true) None []]
  = Raise (KeyError "exercise_info")
  /\ submittable_exercises name_as_config sample_exercises
     = Return ["ex1"; "ex3"].
Proof. split; reflexivity. Qed.

Lemma sdict_get_set_same {V : Type} (d : sdict V) k v :
  sdict_get k (sdict_set k v d) = Some v.
Proof.
  induction d as [|[k' v'] d IH]; simpl.
  - now rewrite String.eqb_refl.
  - destruct (k' =? k)%string eqn:E; simpl; rewrite E; auto.
Qed.

Lemma sdict_get_set_other {V : Type} (d : sdict V) k k' v :
  k' <> k -> sdict_get k' (sdict_set k v d) = sdict_get k' d.
Proof.
  intros Hne. induction d as [|[k0 v0] d IH]; simpl.
  - destruct (k =? k')%string eqn:E; auto.
    apply String.eqb_eq in E. congruence.
  - destruct (k0 =? k)%string eqn:E; simpl.
    + apply String.eqb_eq in E. subst k0.
      destruct (k =? k')%string eqn:E'; auto.
      apply String.eqb_eq in E'. congruence.
    + now rewrite IH.
Qed.

Lemma sdict_set_again {V : Type} (d : sdict V) k v :
  sdict_set k v (sdict_set k v d) = sdict_set k v d.
Proof.
  induction d as [|[k' v'] d IH]; simpl.
  - now rewrite String.eqb_refl.
  - destruct (k' =? k)%string eqn:E; simpl; rewrite E; congruence.
Qed.

(** X10: the patch of [submittable_exercises] sets the [radar] entry of
    [exercise_info] to the manual configuration (tokenizer "skip", 15
    minimum match tokens), replacing a [radar] entry that was there, and
    keeps every other entry; patching twice is patching once. *)
Theorem patched_exercise_info_keeps_other_entries exercise_info k :
  k <> "radar" ->
  sdict_get "radar" (patched_exercise_info exercise_info) = Some manual_radar
  /\ sdict_get k (patched_exercise_info exercise_info)
     = match exercise_info with
       | Some d => sdict_get k d
       | None => None
       end
  /\ patched_exercise_info (Some (patched_exercise_info exercise_info))
     = patched_exercise_info exercise_info.
Proof.
  intros Hk. unfold patched_exercise_info. repeat split.
  - apply sdict_get_set_same.
  - rewrite sdict_get_set_other by assumption. now destruct exercise_info.
  - apply sdict_set_again.
Qed.

Lemma patched_exercise_info_keeps_other_entries_witness :
  sdict_get "radar"
    (patched_exercise_info
       (Some [("radar", JNull); ("grader", JStr "python")]))
  = Some manual_radar
  /\ sdict_get "grader"
       (patched_exercise_info
          (Some [("radar", JNull); ("grader", JStr "python")]))
     = match Some [("radar", JNull); ("grader", JStr "python")] with
       | Some d => sdict_get "grader" d
       | None => None
       end
  /\ patched_exercise_info
       (Some (patched_exercise_info
                (Some [("radar", JNull); ("grader", JStr "python")])))
     = patched_exercise_info
         (Some [("radar", JNull); ("grader", JStr "python")]).
Proof.
  apply (patched_exercise_info_keeps_other_entries
           (Some [("radar", JNull); ("grader", JStr "python")]) "grader").
  discriminate.
Defined.

(** ** configure_course *)

Section ConfigureCourseFacts.
Context {Config : Type}.
Variable get_radar_config : ApiExercise -> option Config.
Variable with_template_source : Config -> Config.
Variable radar_exercise_key : Config -> string.
Variable has_exercise : string -> bool.
Variable json_dumps : list Config -> string.
Variable json_loads : string -> Raises (list ExerciseConfig).
Variable course_repr : string.

Lemma partition_exercise_filter configs new_exercises old_exercises :
  fold_left (partition_exercise with_template_source radar_exercise_key
               has_exercise)
            configs (new_exercises, old_exercises)
  = (new_exercises
     ++ filter (fun c => negb (has_exercise (radar_exercise_key c)))
               (map with_template_source configs),
     old_exercises
     ++ filter (fun c => has_exercise (radar_exercise_key c))
               (map with_template_source configs)).
Proof.
  revert new_exercises old_exercises.
  induction configs as [|c configs IH]; intros n o; simpl.
  - now rewrite !app_nil_r.
  - unfold partition_exercise at 2. simpl.
    destruct (has_exercise (radar_exercise_key (with_template_source c)));
      simpl; rewrite IH, <- ?app_assoc; reflexivity.
Qed.

(** X11: when a fetch is asked for and the API gives no exercises, the
    view renders the error "No exercises found" and no exercise list; when
    that is because the user has no working API client, the credentials
    error comes first and both are shown.  Nothing is saved or reloaded. *)
Theorem configure_course_fetch_failure request :
  querydict_mem "provider-fetch-automatic" (POST request) = true
  \/ querydict_mem "provider-fetch-manual" (POST request) = true ->
  configure_course get_radar_config with_template_source radar_exercise_key
    has_exercise json_dumps json_loads course_repr request None
  = (Return (mkConfigureContext
               [credentials_error course_repr; no_exercises_error course_repr]
               None false), [])
  /\ configure_course get_radar_config with_template_source radar_exercise_key
       has_exercise json_dumps json_loads course_repr request (Some [])
     = (Return (mkConfigureContext [no_exercises_error course_repr]
                  None false), []).
Proof.
  intros H. unfold configure_course.
  assert (E : querydict_mem "provider-fetch-automatic" (POST request)
              || querydict_mem "provider-fetch-manual" (POST request) = true).
  { apply orb_true_iff. exact H. }
  now rewrite E.
Qed.

(** X12: an automatic fetch parts the Radar configurations of the leaf
    exercises, each with its template source fetched, into the exercises
    the course already has (old) and the others (new): every
    configuration is in exactly one of the two lists, in the order of the
    leaves, and [new_json] is the dump of the new ones. *)
Theorem configure_course_automatic request exercises :
  querydict_mem "provider-fetch-automatic" (POST request) = true ->
  exercises <> [] ->
  configure_course get_radar_config with_template_source radar_exercise_key
    has_exercise json_dumps json_loads course_repr request (Some exercises)
  = (Return
       (mkConfigureContext []
          (Some
             (AutomaticExercises
                (filter (fun c => has_exercise (radar_exercise_key c))
                   (map with_template_source
                      (leafs_with_radar_config get_radar_config exercises)))
                (filter (fun c => negb (has_exercise (radar_exercise_key c)))
                   (map with_template_source
                      (leafs_with_radar_config get_radar_config exercises)))
                (json_dumps
                   (filter
                      (fun c => negb (has_exercise (radar_exercise_key c)))
                      (map with_template_source
                         (leafs_with_radar_config get_radar_config
                            exercises))))))
          false), []).
Proof.
  intros Hauto Hne. unfold configure_course. rewrite Hauto. simpl orb.
  cbv iota. destruct exercises as [|e exercises]; [congruence|].
  now rewrite partition_exercise_filter.
Qed.

(** X13: a request that carries a fetch key saves and reloads nothing and
    does not report [create_exercises_success], also when it carries
    [create_exercises] or [overwrite_exercises] as well.  It ends with
    an exception only in a manual fetch (no [provider-fetch-automatic])
    whose exercises have a submittable leaf without [exercise_info], and
    then with that [KeyError]. *)
Theorem configure_course_fetch_first request api_exercises :
  querydict_mem "provider-fetch-automatic" (POST request) = true
  \/ querydict_mem "provider-fetch-manual" (POST request) = true ->
  snd (configure_course get_radar_config with_template_source
         radar_exercise_key has_exercise json_dumps json_loads course_repr
         request api_exercises) = []
  /\ match fst (configure_course get_radar_config with_template_source
                  radar_exercise_key has_exercise json_dumps json_loads
                  course_repr request api_exercises) with
     | Return context => context_create_exercises_success context = false
     | Raise e =>
         e = KeyError "exercise_info"
         /\ querydict_mem "provider-fetch-automatic" (POST request) = false
         /\ exists exercises,
             api_exercises = Some exercises
             /\ existsb lacks_exercise_info
                  (filter is_submittable (leaf_exercises exercises)) = true
     end.
Proof.
  intros H. unfold configure_course.
  assert (E : querydict_mem "provider-fetch-automatic" (POST request)
              || querydict_mem "provider-fetch-manual" (POST request) = true).
  { apply orb_true_iff. exact H. }
  rewrite E.
  destruct api_exercises as [[|e exercises]|]; simpl;
    try (split; reflexivity).
  destruct (querydict_mem "provider-fetch-automatic" (POST request)).
  - rewrite partition_exercise_filter. simpl. split; reflexivity.
  - destruct (querydict_mem "provider-fetch-manual" (POST request));
      [|split; reflexivity].
    change (raises_app (submittable_exercises_of get_radar_config e)
              (submittable_exercises get_radar_config exercises))
      with (submittable_exercises get_radar_config (e :: exercises)).
    destruct (submittable_exercises get_radar_config (e :: exercises))
      as [exercises_data|err] eqn:S; simpl; split; auto.
    apply submittable_exercises_raises in S as [-> Hlacks].
    repeat split; auto. now exists (e :: exercises).
Qed.

Lemma overwrite_exercises_prefix post checked :
  exists done rest,
    checked = done ++ rest
    /\ snd (overwrite_exercises post checked)
       = flat_map (exercise_effects post) done
    /\ Forall (fun k => exists exercise_data,
                   overwrite_exercise_data post k = Return exercise_data)
              done
    /\ match fst (overwrite_exercises post checked) with
       | None => rest = []
       | Some e =>
           exists k rest',
             rest = k :: rest' /\ overwrite_exercise_data post k = Raise e
       end.
Proof.
  induction checked as [|k checked IH]; simpl.
  - exists [], []. repeat split; auto.
  - destruct (overwrite_exercise_data post k) as [d|e] eqn:D.
    + destruct IH as [done [rest [Hc [He [Hd Hr]]]]].
      destruct (overwrite_exercises post checked) as [raised effects].
      simpl in *. exists (k :: done), rest. repeat split.
      * now rewrite Hc.
      * simpl. unfold exercise_effects at 1. rewrite D. simpl. now rewrite He.
      * constructor; eauto.
      * exact Hr.
    + exists [], (k :: checked). simpl. repeat split; eauto.
Qed.

(** X14: the overwrite form is worked off exercise by exercise, in the
    order of its "enabled" fields: each exercise with its three fields is
    saved and reloaded; the first exercise that lacks a field ends the
    request with the key error of that field, after the exercises before
    it were saved and reloaded, and success is reported only when no
    exercise lacked a field. *)
Theorem configure_course_overwrite request api_exercises :
  querydict_mem "provider-fetch-automatic" (POST request) = false ->
  querydict_mem "provider-fetch-manual" (POST request) = false ->
  querydict_mem "create_exercises" (POST request) = false ->
  querydict_mem "overwrite_exercises" (POST request) = true ->
  exists done rest,
    checked_exercises (POST request) = done ++ rest
    /\ snd (configure_course get_radar_config with_template_source
              radar_exercise_key has_exercise json_dumps json_loads
              course_repr request api_exercises)
       = flat_map (exercise_effects (POST request)) done
    /\ Forall (fun k => exists exercise_data,
                   overwrite_exercise_data (POST request) k
                   = Return exercise_data)
              done
    /\ ((rest = []
         /\ fst (configure_course get_radar_config with_template_source
                   radar_exercise_key has_exercise json_dumps json_loads
                   course_repr request api_exercises)
            = Return (mkConfigureContext [] None true))
        \/ exists k rest' e,
            rest = k :: rest'
            /\ overwrite_exercise_data (POST request) k = Raise e
            /\ fst (configure_course get_radar_config with_template_source
                      radar_exercise_key has_exercise json_dumps json_loads
                      course_repr request api_exercises)
               = Raise e).
Proof.
  intros Ha Hm Hc Ho. unfold configure_course. rewrite Ha, Hm, Hc, Ho. simpl.
  destruct (overwrite_exercises_prefix (POST request)
              (checked_exercises (POST request)))
    as [done [rest [Hch [He [Hd Hr]]]]].
  exists done, rest.
  destruct (overwrite_exercises (POST request)
              (checked_exercises (POST request))) as [[e|] effects];
    simpl in *; repeat split; auto.
  - right. destruct Hr as [k [rest' [Hk Hraise]]]. exists k, rest', e. auto.
Qed.

End ConfigureCourseFacts.

Lemma configure_course_fetch_failure_witness :
  sample_configure_course (request_post [("provider-fetch-manual", "1")] false)
    None
  = (Return (mkConfigureContext
               [credentials_error "<Course: X>";
                no_exercises_error "<Course: X>"]
               None false), [])
  /\ sample_configure_course
       (request_post [("provider-fetch-manual", "1")] false) (Some [])
     = (Return (mkConfigureContext [no_exercises_error "<Course: X>"]
                  None false), []).
Proof.
  apply (configure_course_fetch_failure name_as_config (fun c => c)
           (fun c => c) (fun key => (key =? "ex1")%string) (String.concat ",")
           (fun _ => Return []) "<Course: X>"
           (request_post [("provider-fetch-manual", "1")] false)).
  right. reflexivity.
Defined.

Lemma configure_course_automatic_witness :
  sample_configure_course
    (request_post [("provider-fetch-automatic", "1")] false)
    (Some sample_exercises)
  = (Return (mkConfigureContext []
               (Some (AutomaticExercises ["ex1"] ["ex2"; "ex3"] "ex2,ex3"))
               false), []).
Proof.
  apply (configure_course_automatic name_as_config (fun c => c)
           (fun c => c) (fun key => (key =? "ex1")%string) (String.concat ",")
           (fun _ => Return []) "<Course: X>"
           (request_post [("provider-fetch-automatic", "1")] false)
           sample_exercises); [reflexivity | discriminate].
Defined.

Lemma configure_course_fetch_first_witness :
  snd (sample_configure_course
         (request_post [("create_exercises", "1");
                        ("provider-fetch-manual", "1")] false)
         (Some sample_exercises)) = []
  /\ match fst (sample_configure_course
                  (request_post [("create_exercises", "1");
                                 ("provider-fetch-manual", "1")] false)
                  (Some sample_exercises)) with
     | Return context => context_create_exercises_success context = false
     | Raise e =>
         e = KeyError "exercise_info"
         /\ querydict_mem "provider-fetch-automatic"
              (POST (request_post [("create_exercises", "1");
                                   ("provider-fetch-manual", "1")] false))
            = false
         /\ exists exercises,
             Some sample_exercises = Some exercises
             /\ existsb lacks_exercise_info
                  (filter is_submittable (leaf_exercises exercises)) = true
     end.
Proof.
  apply (configure_course_fetch_first name_as_config (fun c => c)
           (fun c => c) (fun key => (key =? "ex1")%string) (String.concat ",")
           (fun _ => Return []) "<Course: X>"
           (request_post [("create_exercises", "1");
                          ("provider-fetch-manual", "1")] false)
           (Some sample_exercises)).
  right. reflexivity.
Defined.

Lemma configure_course_overwrite_witness :
  exists done rest,
    checked_exercises (POST (request_post post_overwrite false)) = done ++ rest
    /\ snd (sample_configure_course (request_post post_overwrite false) None)
       = flat_map (exercise_effects (POST (request_post post_overwrite false)))
                  done
    /\ Forall (fun k => exists exercise_data,
                   overwrite_exercise_data
                     (POST (request_post post_overwrite false)) k
                   = Return exercise_data)
              done
    /\ ((rest = []
         /\ fst (sample_configure_course (request_post post_overwrite false)
                   None)
            = Return (mkConfigureContext [] None true))
        \/ exists k rest' e,
            rest = k :: rest'
            /\ overwrite_exercise_data
                 (POST (request_post post_overwrite false)) k = Raise e
            /\ fst (sample_configure_course
                      (request_post post_overwrite false) None)
               = Raise e).
Proof.
  apply (configure_course_overwrite name_as_config (fun c => c)
           (fun c => c) (fun key => (key =? "ex1")%string) (String.concat ",")
           (fun _ => Return []) "<Course: X>"
           (request_post post_overwrite false) None); reflexivity.
Defined.

(** The overwrite form of the scenario: ex1 is saved and reloaded, then
    the missing tokenizer of ex2 ends the request. *)
Example configure_course_overwrite_scenario :
  sample_configure_course (request_post post_overwrite false) None
  = (Raise (MultiValueDictKeyError "ex2-tokenizer"),
     [SaveExercise "ex1" (mkExerciseConfig "ex1" "One" "python" "15");
      FullReload "ex1"])
  /\ sample_configure_course
       (request_post [("provider-fetch-manual", "1")] false)
       (Some sample_exercises)
     = (Return (mkConfigureContext []
                  (Some (ManualExercises ["ex1"; "ex3"])) false), []).
Proof. split; reflexivity. Qed.

(** ** The field names of the overwrite form *)

Lemma endswith_refl s : endswith s s = true.
Proof.
  destruct s as [|a s]; [reflexivity|].
  change (endswith (String a s) (String a s))
    with ((String a s =? String a s)%string || endswith (String a s) s).
  now rewrite String.eqb_refl.
Qed.

Lemma endswith_app suffix s : endswith suffix (s ++ suffix)%string = true.
Proof.
  induction s as [|a s IH]; simpl.
  - apply endswith_refl.
  - rewrite IH. apply orb_true_r.
Qed.

Lemma split_head_app sep s rest :
  split_head sep (s ++ String sep rest)%string = split_head sep s.
Proof.
  induction s as [|a s IH]; simpl.
  - now rewrite Ascii.eqb_refl.
  - destruct (a =? sep)%char; congruence.
Qed.

Lemma split_head_whole sep s :
  split_head sep s = s <-> contains sep s = false.
Proof.
  induction s as [|a s IH]; simpl; [tauto|].
  destruct (a =? sep)%char; simpl.
  - split; discriminate.
  - rewrite <- IH. split; [intros [= H] | intros ->]; auto.
Qed.

Lemma string_app_assoc (s1 s2 s3 : string) :
  ((s1 ++ s2) ++ s3 = s1 ++ (s2 ++ s3))%string.
Proof. induction s1 as [|a s1 IH]; simpl; congruence. Qed.

(** X16: the field name [key-enabled] of the overwrite form ends in
    "enabled" and gives back the exercise key up to its first "-": the
    whole key exactly when the key contains no "-". *)
Theorem checked_exercise_key key value :
  endswith "enabled" (key ++ "-enabled")%string = true
  /\ split_head "-" (key ++ "-enabled")%string = split_head "-" key
  /\ (split_head "-" (key ++ "-enabled")%string = key
      <-> contains "-" key = false)
  /\ checked_exercises [((key ++ "-enabled")%string, value)]
     = [split_head "-" key].
Proof.
  assert (Hs : split_head "-" (key ++ "-enabled")%string = split_head "-" key)
    by apply (split_head_app "-" key "enabled").
  assert (He : endswith "enabled" (key ++ "-enabled")%string = true).
  { pose proof (endswith_app "enabled" (key ++ "-")%string) as H.
    now rewrite string_app_assoc in H. }
  repeat split; auto.
  - rewrite Hs. apply split_head_whole.
  - rewrite Hs. apply split_head_whole.
  - unfold checked_exercises. cbn [querydict_keys filter].
    rewrite He. cbn [map]. now rewrite Hs.
Qed.

(** ** exercise_settings *)

Section ExerciseSettingsFacts.
Variable form_is_valid : QueryDict -> bool.
Variable form_template_is_valid : QueryDict -> bool.
Variable load_exercise_template : list SettingsEffect -> string.
Variable template_tokens : list SettingsEffect -> string.

(** X17: one request to [exercise_settings] has at most one effect.  The
    exercise is deleted, and the answer is the redirect to the course,
    exactly for a POST with [delete_exercise] and none of [save],
    [override_template], [clear_and_recompare], [provider_reload]; every
    other answer is the settings page, whose [change_success] names the
    effect that took place, if any. *)
Theorem exercise_settings_one_effect request :
  (List.length
     (snd (exercise_settings form_is_valid form_template_is_valid
             load_exercise_template template_tokens request)) <= 1)%nat
  /\ (snd (exercise_settings form_is_valid form_template_is_valid
             load_exercise_template template_tokens request)
      = [DeleteExercise]
      <-> method request = "POST"
          /\ querydict_mem "save" (POST request) = false
          /\ querydict_mem "override_template" (POST request) = false
          /\ querydict_mem "clear_and_recompare" (POST request) = false
          /\ querydict_mem "provider_reload" (POST request) = false
          /\ querydict_mem "delete_exercise" (POST request) = true)
  /\ match fst (exercise_settings form_is_valid form_template_is_valid
                  load_exercise_template template_tokens request) with
     | redirect to =>
         to = "course"
         /\ snd (exercise_settings form_is_valid form_template_is_valid
                   load_exercise_template template_tokens request)
            = [DeleteExercise]
     | render_settings context =>
         change_success context
         = flat_map effect_name
             (snd (exercise_settings form_is_valid form_template_is_valid
                     load_exercise_template template_tokens request))
         /\ ~ In DeleteExercise
              (snd (exercise_settings form_is_valid form_template_is_valid
                      load_exercise_template template_tokens request))
     end.
Proof.
  unfold exercise_settings, settings_post.
  destruct (method request =? "POST")%string eqn:M.
  - apply String.eqb_eq in M.
    destruct (querydict_mem "save" (POST request));
      [destruct (form_is_valid (POST request))|
       destruct (querydict_mem "override_template" (POST request));
       [destruct (form_template_is_valid (POST request))|
        destruct (querydict_mem "clear_and_recompare" (POST request));
        [|destruct (querydict_mem "provider_reload" (POST request));
          [|destruct (querydict_mem "delete_exercise" (POST request))]]]];
      simpl;
      repeat match goal with
             | |- context [if ?b then _ else _] => destruct b
             end;
      simpl; repeat split; auto; try lia;
      try (intros H; decompose [and] H; discriminate);
      try discriminate; intuition discriminate.
  - apply String.eqb_neq in M. simpl.
    repeat match goal with
           | |- context [if ?b then _ else _] => destruct b
           end;
      simpl; repeat split; auto; try lia; try discriminate;
      intuition congruence.
Qed.
End ExerciseSettingsFacts.
